(** * Recipe parser: Models.py, Recipe_Extractor_Demo.py, Recipe_Extractor_Main.py

    A shallow embedding of the recipe extractor.  Characters are Unicode
    code points U+0000..U+00FF (one [ascii] each, read as Latin-1); the
    Python string predicates used by the code ([isspace], [isalnum],
    [lower]) are written out for that range. *)

From Stdlib Require Import String Ascii ZArith List Bool.
From Stdlib Require Import Floats.SpecFloat.
From stdpp Require Import base list gmap sets strings.

Open Scope string_scope.
Set Warnings "-register-all".


(** ** Python string helpers *)
Module PyStr.

Definition in_range (lo hi n : nat) : bool := Nat.leb lo n && Nat.leb n hi.

(** [str.isspace] on U+0000..U+00FF. *)
Definition isspace (c : ascii) : bool :=
  let n := nat_of_ascii c in
  in_range 9 13 n || in_range 28 32 n || (Nat.eqb n 133) || (Nat.eqb n 160).

(** [str.isalnum] on U+0000..U+00FF: letters, digits and the Latin-1
    letters and numerics (ª ² ³ µ ¹ º ¼ ½ ¾ and the accented letters). *)
Definition isalnum (c : ascii) : bool :=
  let n := nat_of_ascii c in
  in_range 48 57 n || in_range 65 90 n || in_range 97 122 n ||
  (Nat.eqb n 170) || (Nat.eqb n 178) || (Nat.eqb n 179) || (Nat.eqb n 181) ||
  (Nat.eqb n 185) || (Nat.eqb n 186) || in_range 188 190 n ||
  in_range 192 214 n || in_range 216 246 n || in_range 248 255 n.

(** [str.lower] on one character of U+0000..U+00FF. *)
Definition lower_char (c : ascii) : ascii :=
  let n := nat_of_ascii c in
  if in_range 65 90 n || in_range 192 214 n || in_range 216 222 n
  then ascii_of_nat (n + 32) else c.

Fixpoint filter (p : ascii -> bool) (s : string) : string :=
  match s with
  | EmptyString => EmptyString
  | String c r => if p c then String c (filter p r) else filter p r
  end.

Fixpoint map (f : ascii -> ascii) (s : string) : string :=
  match s with
  | EmptyString => EmptyString
  | String c r => String (f c) (map f r)
  end.

Definition lower (s : string) : string := map lower_char s.

(** [s.replace(a, b)] for one-character [a] and [b]. *)
Definition replace_char (a b : ascii) (s : string) : string :=
  map (fun c => if Ascii.eqb c a then b else c) s.

Fixpoint lstrip (s : string) : string :=
  match s with
  | EmptyString => EmptyString
  | String c r => if isspace c then lstrip r else s
  end.

Fixpoint rstrip (s : string) : string :=
  match s with
  | EmptyString => EmptyString
  | String c r =>
      let r' := rstrip r in
      if String.eqb r' "" && isspace c then "" else String c r'
  end.

Definition strip (s : string) : string := rstrip (lstrip s).

End PyStr.

(** ** Values produced by [json.loads]

    [json.loads] yields [None], [bool], [int], [float], [str], [list] and
    [dict]; a [dict] is kept as the list of its items in insertion order
    (its keys are distinct).  A Python [float] is an IEEE binary64 number. *)
Definition float := spec_float.

Inductive json :=
| JNull
| JBool (b : bool)
| JInt (z : Z)
| JFloat (f : float)
| JStr (s : string)
| JList (l : list json)
| JDict (kvs : list (string * json)).

Fixpoint assoc (k : string) (kvs : list (string * json)) : option json :=
  match kvs with
  | [] => None
  | (k', v) :: r => if String.eqb k k' then Some v else assoc k r
  end.

(** [d.get(k, default)]; [None] is the [AttributeError] raised when [d]
    is not a [dict]. *)
Definition dict_get (d : json) (k : string) (default : json) : option json :=
  match d with
  | JDict kvs => Some (match assoc k kvs with Some v => v | None => default end)
  | _ => None
  end.

(** [bool(v)]. *)
Definition truthy (v : json) : bool :=
  match v with
  | JNull => false
  | JBool b => b
  | JInt z => negb (Z.eqb z 0)
  | JFloat (S754_zero _) => false
  | JFloat _ => true
  | JStr s => negb (String.eqb s "")
  | JList l => negb (bool_decide (l = []))
  | JDict kvs => negb (bool_decide (kvs = []))
  end.

(** [for x in v]: a list yields its items, a dict its keys, a string its
    characters; [None] is the [TypeError] of a value that is not iterable. *)
Definition py_iter (v : json) : option (list json) :=
  match v with
  | JList l => Some l
  | JDict kvs => Some (List.map (fun kv => JStr (fst kv)) kvs)
  | JStr s => Some (List.map (fun c => JStr (String c EmptyString)) (list_ascii_of_string s))
  | _ => None
  end.

(** [float(z)] for a Python [int]: rounded to nearest, ties to even;
    [None] is the [OverflowError] of an integer beyond the float range. *)
Definition float_of_int (z : Z) : option float :=
  match binary_normalize 53 1024 z 0 false with
  | S754_infinity _ => None
  | f => Some f
  end.

(** The integer a float denotes, when it denotes one. *)
Definition float_int_value (f : float) : option Z :=
  match f with
  | S754_zero _ => Some 0%Z
  | S754_finite s m e =>
      let v := if (0 <=? e)%Z then Some (Z.pos m * 2 ^ e)%Z
               else if (Z.pos m mod 2 ^ (- e) =? 0)%Z
                    then Some (Z.pos m / 2 ^ (- e))%Z else None in
      option_map (fun x => if s then (- x)%Z else x) v
  | _ => None
  end.

(** ** Models.py *)
Module Models.

Record Ingredient := mkIngredient {
  name : string;
  quantity : option float;
  unit : option string
}.

Record Recipe := mkRecipe {
  title : string;
  description : string;
  prep_time : string;
  cook_time : string;
  servings : string;
  ingredients : list Ingredient;
  instructions : list string
}.

End Models.

Import Models.

(** ** Field validation of the pydantic models (pydantic v2, lax mode),
    for the values [json.loads] produces.  [None] is a [ValidationError]. *)
Section Validation.

(** pydantic's parser of numeric strings for a [float] field. *)
Variable str_to_float : string -> option float.

Definition validate_str (v : json) : option string :=
  match v with JStr s => Some s | _ => None end.

Definition validate_opt_str (v : json) : option (option string) :=
  match v with JNull => Some None | JStr s => Some (Some s) | _ => None end.

Definition validate_opt_float (v : json) : option (option float) :=
  match v with
  | JNull => Some None
  | JBool b => option_map Some (float_of_int (if b then 1%Z else 0%Z))
  | JInt z => option_map Some (float_of_int z)
  | JFloat f => Some (Some f)
  | JStr s => option_map Some (str_to_float s)
  | _ => None
  end.

Definition validate_str_list (v : json) : option (list string) :=
  match v with JList l => mapM validate_str l | _ => None end.

(** [Ingredient(name=..., quantity=..., unit=...)]. *)
Definition Ingredient_new (name quantity unit : json) : option Ingredient :=
  n ← validate_str name;
  q ← validate_opt_float quantity;
  u ← validate_opt_str unit;
  Some (mkIngredient n q u).

(** [Recipe(...)]; [ingredients] are already [Ingredient] instances. *)
Definition Recipe_new (title description prep_time cook_time servings : json)
    (ingredients : list Ingredient) (instructions : json) : option Recipe :=
  t ← validate_str title;
  d ← validate_str description;
  p ← validate_str prep_time;
  c ← validate_str cook_time;
  s ← validate_str servings;
  i ← validate_str_list instructions;
  Some (mkRecipe t d p c s ingredients i).

End Validation.

(** ** Recipe_Extractor_Demo.py *)

Inductive level := DEBUG | INFO | WARNING | ERROR.

(** Log records, by level and message text; interpolated counts, lengths
    and exception texts of [Exception]s raised inside the loop are left out. *)
Definition log := list (level * string).

(** [langextract.data.Extraction]. *)
Record Extraction := mkExtraction {
  extraction_class : string;
  extraction_text : string
}.

(** What the call [lx.extract(...)] does: raise an [Exception] (with its
    [str(e)]), or return a result whose extractions are [Some exs]; [None]
    is a falsy result or one without an [extractions] attribute. *)
Inductive lx_outcome :=
| LxRaised (msg : string)
| LxReturned (extractions : option (list Extraction)).

Record RecipeExtractor := mkRecipeExtractor {
  api_key : string;
  model : string
}.

(** [extract_recipe] either returns without calling the service, or calls
    [lx.extract] once with the text, the model id and the API key and
    continues with the outcome. *)
Inductive extract_prog :=
| Return (logs : log) (r : option Recipe)
| CallExtract (logs : log) (text model_id key : string)
    (k : lx_outcome -> log * option Recipe).

Section Extractor.

Variable json_loads : string -> option json.
Variable str_to_float : string -> option float.

(** One ingredient of the loop [for ing in recipe_data.get('ingredients', [])]. *)
Definition ingredient_of (ing : json) : option Ingredient :=
  n ← dict_get ing "name" (JStr "");
  q ← dict_get ing "quantity" JNull;
  u ← dict_get ing "unit" JNull;
  Ingredient_new str_to_float n q u.

(** The body of the inner [try] after the title check. *)
Definition build_recipe (recipe_data : json) : option Recipe :=
  src ← dict_get recipe_data "ingredients" (JList []);
  items ← py_iter src;
  ingredients ← mapM ingredient_of items;
  t ← dict_get recipe_data "title" (JStr "");
  d ← dict_get recipe_data "description" (JStr "");
  p ← dict_get recipe_data "prep_time" (JStr "");
  c ← dict_get recipe_data "cook_time" (JStr "");
  s ← dict_get recipe_data "servings" (JStr "");
  i ← dict_get recipe_data "instructions" (JList []);
  Recipe_new t d p c s ingredients i.

(** The inner [try] for one extraction of class "Recipe": [None] is an
    exception (caught by the inner [except]), [Some None] the [continue]
    of a partial extraction, [Some (Some r)] the [return recipe]. *)
Definition recipe_of_text (text : string) : option (option Recipe) :=
  recipe_data ← json_loads text;
  t ← dict_get recipe_data "title" JNull;
  if negb (truthy t) then Some None
  else option_map Some (build_recipe recipe_data).

(** [for extraction in result.extractions: ...] and the warning after it. *)
Fixpoint scan (exs : list Extraction) : log * option Recipe :=
  match exs with
  | [] => ([(WARNING, "No recipe extractions found in the result")], None)
  | e :: rest =>
      if String.eqb (extraction_class e) "Recipe" then
        match recipe_of_text (extraction_text e) with
        | None =>
            let '(l, r) := scan rest in
            ((ERROR, "Error parsing recipe extraction") ::
             (ERROR, "Extraction text: " ++ extraction_text e) :: l, r)
        | Some None =>
            let '(l, r) := scan rest in
            ((DEBUG, "Skipping partial extraction without title") :: l, r)
        | Some (Some recipe) =>
            ([(INFO, "Successfully extracted recipe: " ++ title recipe);
              (INFO, "ingredients"); (INFO, "instructions")], Some recipe)
        end
      else scan rest
  end.

(** The code after [lx.extract], with the outer [except Exception]. *)
Definition on_outcome (o : lx_outcome) : log * option Recipe :=
  match o with
  | LxRaised msg => ([(ERROR, "Error during recipe extraction: " ++ msg)], None)
  | LxReturned (Some exs) => scan exs
  | LxReturned None => ([(WARNING, "No recipe extractions found in the result")], None)
  end.

Definition extract_recipe (self : RecipeExtractor) (text : string) : extract_prog :=
  let l0 := [(INFO, "Extracting recipe from text")] in
  if Nat.ltb (String.length (PyStr.strip text)) 100 then
    Return (l0 ++ [(WARNING, "Text too short for meaningful recipe extraction")])%list None
  else CallExtract l0 text (model self) (api_key self) on_outcome.

End Extractor.

(** Running [extract_recipe] against the service [lx]. *)
Definition run_extract (lx : string -> string -> string -> lx_outcome)
    (p : extract_prog) : log * option Recipe :=
  match p with
  | Return l r => (l, r)
  | CallExtract l text m key k => let '(l', r) := k (lx text m key) in ((l ++ l')%list, r)
  end.

(** ** Recipe_Extractor_Main.py *)

(** The [input_file] argument of [parse_recipe]: a [pathlib.Path], or the
    plain [str] that [main] passes. *)
Inductive PathArg :=
| PathObj (p : string)
| PyStrPath (p : string).

Definition path_string (a : PathArg) : string :=
  match a with PathObj p => p | PyStrPath p => p end.

Fixpoint take_while (f : ascii -> bool) (l : list ascii) : list ascii :=
  match l with
  | [] => []
  | c :: r => if f c then c :: take_while f r else []
  end.

(** [PurePath.name]: the text after the last '/'. *)
Definition path_name (p : string) : string :=
  string_of_list_ascii
    (rev (take_while (fun c => negb (Ascii.eqb c "/")) (rev (list_ascii_of_string p)))).

Fixpoint last_dot (l : list ascii) (i : nat) (acc : option nat) : option nat :=
  match l with
  | [] => acc
  | c :: r => last_dot r (S i) (if Ascii.eqb c "." then Some i else acc)
  end.

(** [PurePath.stem] (Python 3.12): [name[:i]] for [i = name.rfind('.')]
    when [0 < i < len(name) - 1], else [name]. *)
Definition path_stem (p : string) : string :=
  let nm := list_ascii_of_string (path_name p) in
  match last_dot nm 0 None with
  | Some i =>
      if Nat.ltb 0 i && Nat.ltb i (length nm - 1)
      then string_of_list_ascii (firstn i nm) else path_name p
  | None => path_name p
  end.

(** [input_file.stem]; [None] is the [AttributeError] of a [str]. *)
Definition input_stem (a : PathArg) : option string :=
  match a with PathObj p => Some (path_stem p) | PyStrPath _ => None end.

(** [c.isalnum() or c in (' ', '-', '_')]. *)
Definition slug_keep (c : ascii) : bool :=
  PyStr.isalnum c || Ascii.eqb c " " || Ascii.eqb c "-" || Ascii.eqb c "_".

(** [safe_title] before the fallback:
    ["".join(c for c in title if ...).rstrip()], then
    [.replace(' ', '_').lower()]. *)
Definition slugify (title : string) : string :=
  let safe_title := PyStr.rstrip (PyStr.filter slug_keep title) in
  PyStr.lower (PyStr.replace_char " " "_" safe_title).

(** [safe_title] with the fallback [if not safe_title: safe_title = input_file.stem]. *)
Definition safe_title_of (title : string) (input_file : PathArg) : option string :=
  let safe_title := slugify title in
  if String.eqb safe_title "" then input_stem input_file else Some safe_title.

(** The file system: file contents by path, and the directories. *)
Record FS := mkFS {
  files : gmap string string;
  dirs : gset string
}.

(** [open(p, 'r').read()]; [None] is an [OSError]. *)
Definition read_file (fs : FS) (p : string) : option string := files fs !! p.

(** Paths are normalised: no trailing '/', no empty or "." component.
    The working directory "." and the root ("/", or "", the part of an
    absolute path before its first '/') are directories that always
    exist. *)
Definition is_root (p : string) : bool :=
  String.eqb p "." || String.eqb p "/" || String.eqb p "".

Inductive node_kind := KFile | KDir.

(** What [p] names in [fs], if anything. *)
Definition node (fs : FS) (p : string) : option node_kind :=
  match files fs !! p with
  | Some _ => Some KFile
  | None => if is_root p || bool_decide (p ∈ dirs fs) then Some KDir else None
  end.

(** The prefixes of a path that end before one of its '/', outermost
    first: the directories the system walks through to reach the path.
    [r] is the path reversed. *)
Fixpoint ancestors_rev (r : list ascii) : list string :=
  match r with
  | [] => []
  | c :: r' =>
      if Ascii.eqb c "/" then ancestors_rev r' ++ [string_of_list_ascii (rev r')]
      else ancestors_rev r'
  end.

Definition ancestors (p : string) : list string :=
  ancestors_rev (rev (list_ascii_of_string p)).

(** [PurePath.parent]: "." for a single relative component, "/" for a
    single absolute one. *)
Definition path_parent (p : string) : string :=
  match last (ancestors p) with
  | None => "."
  | Some a => if String.eqb a "" then "/" else a
  end.

Inductive errno := ENOENT | ENOTDIR | EEXIST.

(** Path resolution: the error of the first ancestor that is not a
    directory ([FileNotFoundError] when it is missing,
    [NotADirectoryError] when it is a file). *)
Fixpoint walk (fs : FS) (ancs : list string) : option errno :=
  match ancs with
  | [] => None
  | a :: rest =>
      match node fs a with
      | Some KDir => walk fs rest
      | Some KFile => Some ENOTDIR
      | None => Some ENOENT
      end
  end.

(** [os.mkdir(d)]. *)
Definition os_mkdir (fs : FS) (d : string) : errno + FS :=
  match walk fs (ancestors d) with
  | Some e => inl e
  | None =>
      match node fs d with
      | Some _ => inl EEXIST
      | None => inr (mkFS (files fs) ({[d]} ∪ dirs fs))
      end
  end.

(** [Path(d).is_dir()]: [False] also when resolution fails. *)
Definition is_dir (fs : FS) (d : string) : bool :=
  match walk fs (ancestors d) with
  | Some _ => false
  | None => match node fs d with Some KDir => true | _ => false end
  end.

(** [Path(d).mkdir(parents=parents, exist_ok=True)] of pathlib:
<<
    try:
        os.mkdir(self, mode)
    except FileNotFoundError:
        if not parents or self.parent == self:
            raise
        self.parent.mkdir(parents=True, exist_ok=True)
        self.mkdir(mode, parents=False, exist_ok=exist_ok)
    except OSError:
        if not exist_ok or not self.is_dir():
            raise
>>
    [None] is the exception.  Each recursive call on the parent removes
    one component, so [fuel] = [String.length d] is never exhausted. *)
Fixpoint mkdir_go (fuel : nat) (parents : bool) (fs : FS) (d : string) : option FS :=
  match os_mkdir fs d with
  | inr fs' => Some fs'
  | inl ENOENT =>
      if negb parents || String.eqb (path_parent d) d then None else
      match fuel with
      | O => None
      | S fuel' =>
          match mkdir_go fuel' true fs (path_parent d) with
          | None => None
          | Some fs1 => mkdir_go fuel' false fs1 d
          end
      end
  | inl _ => if is_dir fs d then Some fs else None
  end.

(** [Path(d).mkdir(parents=True, exist_ok=True)]. *)
Definition mkdir_p (fs : FS) (d : string) : option FS :=
  mkdir_go (String.length d) true fs d.

(** [open(p, 'w')] and a write of [c]: truncates, fails on a directory. *)
Definition write_file (fs : FS) (p c : string) : option FS :=
  if bool_decide (p ∈ dirs fs) then None
  else Some (mkFS (<[p := c]> (files fs)) (dirs fs)).

(** [output_dir / name]. *)
Definition path_join (d n : string) : string := d ++ "/" ++ n.

(** [model_dump()]: fields in declaration order. *)
Definition opt_float_dump (q : option float) : json :=
  match q with Some f => JFloat f | None => JNull end.

Definition opt_str_dump (u : option string) : json :=
  match u with Some s => JStr s | None => JNull end.

Definition Ingredient_dump (i : Ingredient) : json :=
  JDict [("name", JStr (name i)); ("quantity", opt_float_dump (quantity i));
         ("unit", opt_str_dump (unit i))].

Definition Recipe_dump (r : Recipe) : json :=
  JDict [("title", JStr (title r)); ("description", JStr (description r));
         ("prep_time", JStr (prep_time r)); ("cook_time", JStr (cook_time r));
         ("servings", JStr (servings r));
         ("ingredients", JList (List.map Ingredient_dump (ingredients r)));
         ("instructions", JList (List.map JStr (instructions r)))].

(** [str(n)] for a natural number. *)
Fixpoint py_str_nat_go (fuel n : nat) (acc : string) : string :=
  match fuel with
  | O => acc
  | S fuel' =>
      let acc' := String (ascii_of_nat (48 + n mod 10)) acc in
      if Nat.ltb n 10 then acc' else py_str_nat_go fuel' (n / 10) acc'
  end.

Definition py_str_nat (n : nat) : string := py_str_nat_go (S n) n EmptyString.

(** UTF-8 encoding of a string of code points U+0000..U+00FF. *)
Definition utf8_char (c : ascii) : string :=
  let n := nat_of_ascii c in
  if Nat.ltb n 128 then String c EmptyString
  else String (ascii_of_nat (192 + n / 64)) (String (ascii_of_nat (128 + n mod 64)) EmptyString).

Fixpoint utf8 (s : string) : string :=
  match s with
  | EmptyString => EmptyString
  | String c r => utf8_char c ++ utf8 r
  end.

Definition newline : string := String (ascii_of_nat 10) EmptyString.

(** The ten lines of the summary that [parse_recipe] prints after writing
    both files, each given as its UTF-8 bytes ([print] adds the line
    break). *)
Definition summary_lines (recipe : Recipe) (json_file html_file : string) : list string :=
  [newline ++ "✅ Recipe successfully parsed!";
   "📝 Title: " ++ utf8 (title recipe);
   "⏱️  Prep Time: " ++ utf8 (prep_time recipe);
   "🔥 Cook Time: " ++ utf8 (cook_time recipe);
   "🍽️  Servings: " ++ utf8 (servings recipe);
   "🥘 Ingredients: " ++ py_str_nat (length (ingredients recipe));
   "📋 Instructions: " ++ py_str_nat (length (instructions recipe)) ++ " steps";
   newline ++ "📄 Output files:";
   "   - JSON: " ++ utf8 json_file;
   "   - HTML: " ++ utf8 html_file].

Section Main.

Variable json_loads : string -> option json.
Variable str_to_float : string -> option float.
(** The text [json.dump(..., indent=2, ensure_ascii=False)] writes. *)
Variable json_dump : json -> string.
(** [generate_html_visualization(recipe, original_text)]: its template
    text is not modelled, only that it is computed from its arguments. *)
Variable generate_html_visualization : Recipe -> string -> string.
Variable lx : string -> string -> string -> lx_outcome.
(** Whether printing these lines to [sys.stdout], in order, raises no
    exception (an encoding error, a closed pipe, ...). *)
Variable stdout_ok : list string -> bool.

(** [parse_recipe(input_file, output_dir, api_key, model)]: the final
    file system and the returned boolean (every exception is caught and
    returns [False]).  Logging is left out; of the console output only
    whether printing the summary raises is kept. *)
Definition parse_recipe (input_file : PathArg) (output_dir api_key model : string)
    (fs : FS) : FS * bool :=
  match read_file fs (path_string input_file) with
  | None => (fs, false)
  | Some recipe_text =>
    if String.eqb (PyStr.strip recipe_text) "" then (fs, false) else
    let extractor := mkRecipeExtractor api_key model in
    match snd (run_extract lx (extract_recipe json_loads str_to_float extractor recipe_text)) with
    | None => (fs, false)
    | Some recipe =>
      match mkdir_p fs output_dir with
      | None => (fs, false)
      | Some fs1 =>
        match safe_title_of (title recipe) input_file with
        | None => (fs1, false)
        | Some safe_title =>
          let json_file := path_join output_dir (safe_title ++ ".json") in
          match write_file fs1 json_file (json_dump (Recipe_dump recipe)) with
          | None => (fs1, false)
          | Some fs2 =>
            let html_file := path_join output_dir (safe_title ++ ".html") in
            match write_file fs2 html_file (generate_html_visualization recipe recipe_text) with
            | None => (fs2, false)
            | Some fs3 =>
              if stdout_ok (summary_lines recipe json_file html_file) then (fs3, true)
              else (fs3, false)
            end
          end
        end
      end
    end
  end.

(** [main()]: exits at once, or calls [parse_recipe] and exits with the
    code computed from its result. *)
Inductive main_prog :=
| Exit (code : Z)
| CallParse (input_file : PathArg) (output_dir api_key model : string) (k : bool -> Z).

(** [env_key] is [os.getenv("LANGEXTRACT_API_KEY")]. *)
Definition main (env_key : option string) : main_prog :=
  match env_key with
  | Some key =>
      if String.eqb key "" then Exit 1
      else CallParse (PyStrPath "recipe.txt") "output" key "gemini-2.5-flash"
             (fun success => if success then 0%Z else 1%Z)
  | None => Exit 1
  end.

Definition run_main (env_key : option string) (fs : FS) : FS * Z :=
  match main env_key with
  | Exit c => (fs, c)
  | CallParse i o key m k => let '(fs', ok) := parse_recipe i o key m fs in (fs', k ok)
  end.

End Main.

(** ** [generate_html_visualization]

    The function builds a Python [str]; it is given here as the UTF-8
    bytes that [open(html_file, 'w', encoding='utf-8')] writes: the
    template text (which has emoji) is written in UTF-8, and every
    interpolated value, a string of code points U+0000..U+00FF, is
    encoded with [utf8]. *)

(** The template pieces are written with ^ in place of each double quote
    (the template has no ^ of its own); [{{] and [}}] of the f-strings
    are already [{] and [}]. *)
Definition with_quotes (s : string) : string :=
  PyStr.replace_char "^" (ascii_of_nat 34) s.

Definition tpl_head : string := with_quotes "<!DOCTYPE html>
<html lang=^en^>
<head>
    <meta charset=^UTF-8^>
    <meta name=^viewport^ content=^width=device-width, initial-scale=1.0^>
    <title>".

Definition tpl_style : string := with_quotes " - Parsed Recipe</title>
    <style>
        body {
            font-family: -apple-system, BlinkMacSystemFont, 'Segoe UI', Roboto, Oxygen, Ubuntu, Cantarell, sans-serif;
            line-height: 1.6;
            max-width: 1200px;
            margin: 0 auto;
            padding: 20px;
            background-color: #f5f5f5;
        }
        .container {
            display: grid;
            grid-template-columns: 1fr 1fr;
            gap: 30px;
        }
        .panel {
            background: white;
            padding: 30px;
            border-radius: 8px;
            box-shadow: 0 2px 4px rgba(0,0,0,0.1);
        }
        h1 {
            color: #333;
            margin-bottom: 10px;
        }
        h2 {
            color: #666;
            margin-top: 30px;
            margin-bottom: 15px;
            border-bottom: 2px solid #e0e0e0;
            padding-bottom: 5px;
        }
        .meta {
            display: flex;
            gap: 20px;
            margin-bottom: 20px;
            font-size: 14px;
            color: #666;
        }
        .meta-item {
            display: flex;
            align-items: center;
            gap: 5px;
        }
        .description {
            font-style: italic;
            color: #666;
            margin-bottom: 20px;
        }
        .ingredient {
            display: flex;
            gap: 10px;
            margin-bottom: 8px;
            padding: 8px;
            background: #f9f9f9;
            border-radius: 4px;
        }
        .quantity {
            font-weight: bold;
            color: #2196F3;
            min-width: 50px;
        }
        .unit {
            color: #666;
            min-width: 50px;
        }
        .name {
            flex: 1;
        }
        .instruction {
            margin-bottom: 15px;
            padding-left: 30px;
            position: relative;
        }
        .instruction::before {
            content: counter(step);
            counter-increment: step;
            position: absolute;
            left: 0;
            top: 0;
            background: #2196F3;
            color: white;
            width: 24px;
            height: 24px;
            border-radius: 50%;
            display: flex;
            align-items: center;
            justify-content: center;
            font-size: 12px;
            font-weight: bold;
        }
        .instructions {
            counter-reset: step;
        }
        .original-text {
            white-space: pre-wrap;
            font-family: 'Courier New', monospace;
            font-size: 14px;
            line-height: 1.5;
            color: #444;
        }
        @media (max-width: 768px) {
            .container {
                grid-template-columns: 1fr;
            }
        }
    </style>
</head>
<body>
    <div class=^container^>
        <div class=^panel^>
            <h1>".

Definition tpl_meta : string := with_quotes "</h1>
            
            <div class=^meta^>
                <div class=^meta-item^>⏱️ Prep: ".

Definition tpl_cook : string := with_quotes "</div>
                <div class=^meta-item^>🔥 Cook: ".

Definition tpl_servings : string := with_quotes "</div>
                <div class=^meta-item^>🍽️ Servings: ".

Definition tpl_description : string := with_quotes "</div>
            </div>
            
            <p class=^description^>".

Definition tpl_ingredients : string := with_quotes "</p>
            
            <h2>Ingredients</h2>
            <div class=^ingredients^>
".

Definition tpl_ing_quantity : string := with_quotes "
                <div class=^ingredient^>
                    <span class=^quantity^>".

Definition tpl_ing_unit : string := with_quotes "</span>
                    <span class=^unit^>".

Definition tpl_ing_name : string := with_quotes "</span>
                    <span class=^name^>".

Definition tpl_ing_close : string := with_quotes "</span>
                </div>
".

Definition tpl_instructions : string := with_quotes "
            </div>
            
            <h2>Instructions</h2>
            <div class=^instructions^>
".

Definition tpl_instr_open : string := with_quotes "
                <div class=^instruction^>".

Definition tpl_instr_close : string := with_quotes "</div>
".

Definition tpl_text_open : string := with_quotes "
            </div>
        </div>
        
        <div class=^panel^>
            <h2>Original Recipe Text</h2>
            <div class=^original-text^>".

Definition tpl_close : string := with_quotes "</div>
        </div>
    </div>
</body>
</html>
".


Section Html.

(** [f"{ing.quantity}"]: Python's [repr] of a float. *)
Variable float_repr : float -> string.

(** The f-string of one ingredient in [for ing in recipe.ingredients]. *)
Definition ingredient_html (ing : Ingredient) : string :=
  let quantity_str := match quantity ing with Some q => float_repr q | None => "" end in
  let unit_str := match unit ing with
                  | Some u => if negb (String.eqb u "") then u else ""
                  | None => "" end in
  tpl_ing_quantity ++ utf8 quantity_str ++ tpl_ing_unit ++ utf8 unit_str ++
  tpl_ing_name ++ utf8 (name ing) ++ tpl_ing_close.

(** The f-string of one step in [for instruction in recipe.instructions]. *)
Definition instruction_html (instruction : string) : string :=
  tpl_instr_open ++ utf8 instruction ++ tpl_instr_close.

Definition generate_html_visualization (recipe : Recipe) (original_text : string) : string :=
  let html :=
    tpl_head ++ utf8 (title recipe) ++ tpl_style ++ utf8 (title recipe) ++
    tpl_meta ++ utf8 (prep_time recipe) ++ tpl_cook ++ utf8 (cook_time recipe) ++
    tpl_servings ++ utf8 (servings recipe) ++ tpl_description ++
    utf8 (description recipe) ++ tpl_ingredients in
  let html := fold_left (fun html ing => html ++ ingredient_html ing)
                (ingredients recipe) html in
  let html := html ++ tpl_instructions in
  let html := fold_left (fun html instruction => html ++ instruction_html instruction)
                (instructions recipe) html in
  html ++ tpl_text_open ++ utf8 original_text ++ tpl_close.

End Html.

(** ** Selection and sample payloads *)

(** An extraction the loop of [extract_recipe] turns into [r]: class
    "Recipe", a payload that decodes to a dict with a truthy title, and
    fields that convert to the pydantic models. *)
Definition converts (json_loads : string -> option json)
    (str_to_float : string -> option float) (e : Extraction) (r : Recipe) : Prop :=
  extraction_class e = "Recipe" /\
  exists kvs t, json_loads (extraction_text e) = Some (JDict kvs) /\
    assoc "title" kvs = Some t /\ truthy t = true /\
    build_recipe str_to_float (JDict kvs) = Some r.

Definition dq : string := String (ascii_of_nat 34) EmptyString.
Definition jstr (s : string) : string := dq ++ s ++ dq.

(** {"title": "Pancakes", "ingredients": null} *)
Definition payload_pancakes : string :=
  "{" ++ jstr "title" ++ ": " ++ jstr "Pancakes" ++ ", " ++
  jstr "ingredients" ++ ": null}".

(** {"title": "Waffles"} *)
Definition payload_waffles : string :=
  "{" ++ jstr "title" ++ ": " ++ jstr "Waffles" ++ "}".

(** {"title": "Rice", "description": "Plain rice", "prep_time": "5 minutes",
     "cook_time": "20 minutes", "servings": "many",
     "ingredients": [{"name": "rice", "quantity": 9007199254740993, "unit": "g"}],
     "instructions": ["Boil"]} *)
Definition payload_rice : string :=
  "{" ++ jstr "title" ++ ": " ++ jstr "Rice" ++ ", " ++
  jstr "description" ++ ": " ++ jstr "Plain rice" ++ ", " ++
  jstr "prep_time" ++ ": " ++ jstr "5 minutes" ++ ", " ++
  jstr "cook_time" ++ ": " ++ jstr "20 minutes" ++ ", " ++
  jstr "servings" ++ ": " ++ jstr "many" ++ ", " ++
  jstr "ingredients" ++ ": [{" ++ jstr "name" ++ ": " ++ jstr "rice" ++ ", " ++
  jstr "quantity" ++ ": 9007199254740993, " ++ jstr "unit" ++ ": " ++ jstr "g" ++
  "}], " ++ jstr "instructions" ++ ": [" ++ jstr "Boil" ++ "]}".

Definition rice_json : json :=
  JDict [("title", JStr "Rice"); ("description", JStr "Plain rice");
         ("prep_time", JStr "5 minutes"); ("cook_time", JStr "20 minutes");
         ("servings", JStr "many");
         ("ingredients", JList [JDict [("name", JStr "rice");
                                       ("quantity", JInt 9007199254740993);
                                       ("unit", JStr "g")]]);
         ("instructions", JList [JStr "Boil"])].

(** [json.loads] on the payloads above (and on "{}"); other texts raise. *)
Definition sample_loads (s : string) : option json :=
  if String.eqb s payload_pancakes then
    Some (JDict [("title", JStr "Pancakes"); ("ingredients", JNull)])
  else if String.eqb s payload_waffles then Some (JDict [("title", JStr "Waffles")])
  else if String.eqb s payload_rice then Some rice_json
  else if String.eqb s "{}" then Some (JDict [])
  else None.

(** pydantic's numeric-string parser; no payload above has a string quantity. *)
Definition sample_str_to_float (s : string) : option float := None.

(** The float a JSON number is stored as in a [float] field. *)
Definition number_float (q : json) : option float :=
  match q with JFloat f => Some f | JInt z => float_of_int z | _ => None end.

(** The slug as the spec words it: drop characters other than
    alphanumerics, space, hyphen and underscore, turn spaces into
    underscores, lowercase; an empty result falls back to the stem. *)
Definition spec_slug (title stem : string) : string :=
  let s := PyStr.lower (PyStr.replace_char " " "_" (PyStr.filter slug_keep title)) in
  if String.eqb s "" then stem else s.

(** A recipe text of more than 100 characters after stripping. *)
Definition sample_text : string :=
  "Waffles. Whisk two cups of flour, two eggs, one and a half cups of milk and melted butter. Cook in a hot iron until golden.".

(** A recipe text of fewer than 100 characters. *)
Definition short_text : string := "  Toast: toast the bread.  ".

Definition sample_extractor : RecipeExtractor :=
  mkRecipeExtractor "test-key" "gemini-2.5-flash".

(** [lx.extract] answering with one "Recipe" extraction. *)
Definition sample_lx (text model api_key : string) : lx_outcome :=
  LxReturned (Some [mkExtraction "Recipe" payload_waffles]).

(** [lx.extract] raising, as on a rejected API key. *)
Definition failing_lx (text model api_key : string) : lx_outcome :=
  LxRaised "API key not valid".

(** Stand-ins for [json.dump] and [generate_html_visualization]. *)
Definition sample_json_dump (j : json) : string :=
  match j with JDict kvs => "{" ++ String.concat ", " (List.map (fun kv => jstr (fst kv)) kvs) ++ "}"
  | _ => "null" end.
Definition sample_html (r : Recipe) (text : string) : string :=
  "<h1>" ++ title r ++ "</h1>".

(** A file system holding only recipe.txt, and one that also holds an
    older JSON file at the output path. *)
Definition sample_fs : FS := mkFS {["recipe.txt" := sample_text]} ∅.
Definition sample_fs_stale : FS :=
  mkFS (<["output/waffles.json" := "stale"]> {["recipe.txt" := sample_text]}) ∅.

(** A console that prints anything, and one that cannot print the
    summary (as when [sys.stdout] cannot encode its emoji). *)
Definition sample_out (lines : list string) : bool := true.
Definition failing_out (lines : list string) : bool := false.

(** A character a slug may hold: alphanumeric, '-' or '_', already
    lowercase, not whitespace, not a space. *)
Definition slug_ok (c : ascii) : bool :=
  (PyStr.isalnum c || Ascii.eqb c "-" || Ascii.eqb c "_") &&
  Ascii.eqb (PyStr.lower_char c) c && negb (PyStr.isspace c) && negb (Ascii.eqb c " ").

(** * Properties *)

(** ** Strings *)

Lemma str_app_cons (x : ascii) (a b : string) : String x a ++ b = String x (a ++ b).
Proof. reflexivity. Qed.

Lemma str_app_assoc (a b c : string) : (a ++ b) ++ c = a ++ (b ++ c).
Proof. induction a as [|x a IH]; [reflexivity|]. rewrite !str_app_cons. by rewrite IH. Qed.

Lemma str_app_nil_r (a : string) : a ++ "" = a.
Proof. induction a as [|x a IH]; [reflexivity|]. rewrite !str_app_cons. by rewrite IH. Qed.

Lemma list_ascii_of_string_app (a b : string) :
  list_ascii_of_string (a ++ b) = (list_ascii_of_string a ++ list_ascii_of_string b)%list.
Proof.
  induction a as [|x a IH]; [reflexivity|]. rewrite str_app_cons.
  change (x :: list_ascii_of_string (a ++ b) =
          x :: (list_ascii_of_string a ++ list_ascii_of_string b))%list.
  by rewrite IH.
Qed.


(** ** The extraction loop *)

Ltac inv_some H :=
  repeat match type of H with
  | _ ≫= _ = Some _ =>
      let x := fresh "x" in let E := fresh "E" in
      apply bind_Some in H as (x & E & H)
  | Some _ = Some _ => injection H as H
  end.

Lemma validate_str_Some v s : validate_str v = Some s <-> v = JStr s.
Proof. destruct v; cbn; split; congruence. Qed.

Lemma recipe_of_text_accept json_loads str_to_float text r :
  recipe_of_text json_loads str_to_float text = Some (Some r) <->
  exists kvs t, json_loads text = Some (JDict kvs) /\
    assoc "title" kvs = Some t /\ truthy t = true /\
    build_recipe str_to_float (JDict kvs) = Some r.
Proof.
  unfold recipe_of_text. remember (build_recipe str_to_float) as B eqn:EB. split.
  - intros H. destruct (json_loads text) as [d|]; cbn in H; [|discriminate].
    destruct d as [| | | | | |kvs]; cbn in H; try discriminate.
    exists kvs. destruct (assoc "title" kvs) as [t|]; cbn in H; [|discriminate].
    exists t. destruct (truthy t); cbn in H; [|discriminate].
    destruct (B (JDict kvs)) as [r'|]; cbn in H; [|discriminate].
    injection H as ->. auto.
  - intros (kvs & t & Hl & Ht & Htr & Hb). rewrite Hl. cbn. rewrite Ht, Htr. cbn.
    rewrite Hb. reflexivity.
Qed.

Lemma build_recipe_title str_to_float kvs r :
  build_recipe str_to_float (JDict kvs) = Some r ->
  match assoc "title" kvs with Some v => v | None => JStr "" end = JStr (title r).
Proof.
  unfold build_recipe, Recipe_new. cbn. intros H. inv_some H. subst r. cbn.
  by apply validate_str_Some.
Qed.

Lemma recipe_of_text_title json_loads str_to_float text r :
  recipe_of_text json_loads str_to_float text = Some (Some r) -> title r <> "".
Proof.
  intros H. apply recipe_of_text_accept in H as (kvs & t & _ & Ht & Htr & Hb).
  apply build_recipe_title in Hb. rewrite Ht in Hb. subst t.
  cbn in Htr. intros E. rewrite E in Htr. discriminate.
Qed.

Lemma scan_some json_loads str_to_float exs r :
  snd (scan json_loads str_to_float exs) = Some r ->
  exists e, In e exs /\ extraction_class e = "Recipe" /\
    recipe_of_text json_loads str_to_float (extraction_text e) = Some (Some r).
Proof.
  induction exs as [|e rest IH]; cbn; [discriminate|].
  destruct (String.eqb_spec (extraction_class e) "Recipe") as [Hc|Hc].
  - destruct (recipe_of_text json_loads str_to_float (extraction_text e)) as [[r'|]|] eqn:E.
    + cbn. intros [= ->]. eauto.
    + destruct (scan json_loads str_to_float rest) as [l r'] eqn:Es. cbn. intros H.
      cbn in IH. destruct (IH H) as (e' & ? & ? & ?). eauto.
    + destruct (scan json_loads str_to_float rest) as [l r'] eqn:Es. cbn. intros H.
      cbn in IH. destruct (IH H) as (e' & ? & ? & ?). eauto.
  - intros H. destruct (IH H) as (e' & ? & ? & ?). eauto.
Qed.

Lemma run_extract_some lx json_loads str_to_float self text r :
  snd (run_extract lx (extract_recipe json_loads str_to_float self text)) = Some r ->
  exists exs, lx text (model self) (api_key self) = LxReturned (Some exs) /\
    snd (scan json_loads str_to_float exs) = Some r.
Proof.
  unfold extract_recipe. destruct (Nat.ltb _ 100); cbn; [discriminate|].
  destruct (lx text (model self) (api_key self)) as [msg|[exs|]]; cbn; try discriminate.
  destruct (scan json_loads str_to_float exs) as [l r'] eqn:E. cbn. intros ->.
  exists exs. rewrite E. auto.
Qed.

(** C10: a recipe returned by [extract_recipe] has a non-empty title. *)
Theorem extract_recipe_title_nonempty lx json_loads str_to_float self text r :
  snd (run_extract lx (extract_recipe json_loads str_to_float self text)) = Some r ->
  title r <> "".
Proof.
  intros H. apply run_extract_some in H as (exs & _ & H).
  apply scan_some in H as (e & _ & _ & H). exact (recipe_of_text_title _ _ _ _ H).
Qed.

Lemma extract_recipe_title_nonempty_witness :
  snd (run_extract sample_lx
         (extract_recipe sample_loads sample_str_to_float sample_extractor sample_text)) =
    Some (mkRecipe "Waffles" "" "" "" "" [] []) /\
  title (mkRecipe "Waffles" "" "" "" "" [] []) <> "".
Proof.
  assert (H : snd (run_extract sample_lx
                     (extract_recipe sample_loads sample_str_to_float sample_extractor
                        sample_text)) = Some (mkRecipe "Waffles" "" "" "" "" [] []))
    by (vm_compute; reflexivity).
  split; [exact H|]. exact (extract_recipe_title_nonempty _ _ _ _ _ _ H).
Defined.


(** C4: for text shorter than 100 characters once stripped,
    [extract_recipe] returns [None] without calling the service. *)
Theorem extract_recipe_short_text json_loads str_to_float self text :
  String.length (PyStr.strip text) < 100 ->
  extract_recipe json_loads str_to_float self text =
    Return [(INFO, "Extracting recipe from text");
            (WARNING, "Text too short for meaningful recipe extraction")] None.
Proof.
  intros H. unfold extract_recipe. apply Nat.ltb_lt in H. rewrite H. reflexivity.
Qed.

Lemma extract_recipe_short_text_witness :
  String.length (PyStr.strip short_text) < 100 /\
  extract_recipe sample_loads sample_str_to_float sample_extractor short_text =
    Return [(INFO, "Extracting recipe from text");
            (WARNING, "Text too short for meaningful recipe extraction")] None.
Proof.
  assert (H : String.length (PyStr.strip short_text) < 100) by (vm_compute; lia).
  split; [exact H|]. exact (extract_recipe_short_text _ _ _ _ H).
Defined.


(** C7: when [lx.extract] raises, [extract_recipe] logs the error and
    returns [None]. *)
Theorem extract_recipe_call_raises lx json_loads str_to_float self text msg :
  lx text (model self) (api_key self) = LxRaised msg ->
  run_extract lx (extract_recipe json_loads str_to_float self text) =
    if Nat.ltb (String.length (PyStr.strip text)) 100 then
      ([(INFO, "Extracting recipe from text");
        (WARNING, "Text too short for meaningful recipe extraction")], None)
    else
      ([(INFO, "Extracting recipe from text");
        (ERROR, "Error during recipe extraction: " ++ msg)], None).
Proof.
  intros H. unfold extract_recipe.
  destruct (Nat.ltb _ 100); cbn; [reflexivity|]. rewrite H. reflexivity.
Qed.

Lemma extract_recipe_call_raises_witness :
  failing_lx sample_text (model sample_extractor) (api_key sample_extractor) =
    LxRaised "API key not valid" /\
  run_extract failing_lx
    (extract_recipe sample_loads sample_str_to_float sample_extractor sample_text) =
    ([(INFO, "Extracting recipe from text");
      (ERROR, "Error during recipe extraction: API key not valid")], None).
Proof.
  assert (H : failing_lx sample_text (model sample_extractor) (api_key sample_extractor) =
                LxRaised "API key not valid") by reflexivity.
  split; [exact H|].
  rewrite (extract_recipe_call_raises failing_lx sample_loads sample_str_to_float
             sample_extractor sample_text "API key not valid" H).
  vm_compute. reflexivity.
Defined.


Lemma recipe_of_text_converts json_loads str_to_float e r :
  converts json_loads str_to_float e r <->
  extraction_class e = "Recipe" /\
  recipe_of_text json_loads str_to_float (extraction_text e) = Some (Some r).
Proof.
  unfold converts. rewrite recipe_of_text_accept. reflexivity.
Qed.

Lemma scan_first json_loads str_to_float exs r :
  snd (scan json_loads str_to_float exs) = Some r <->
  exists pre e post, exs = (pre ++ e :: post)%list /\
    converts json_loads str_to_float e r /\
    Forall (fun e' => forall r', ~ converts json_loads str_to_float e' r') pre.
Proof.
  setoid_rewrite recipe_of_text_converts.
  induction exs as [|e rest IH]; cbn.
  - split; [discriminate|]. intros ([|] & ? & ? & ? & _); discriminate.
  - destruct (String.eqb_spec (extraction_class e) "Recipe") as [Hc|Hc].
    + destruct (recipe_of_text json_loads str_to_float (extraction_text e))
        as [[r'|]|] eqn:E.
      * cbn. split.
        -- intros [= ->]. exists [], e, rest. repeat split; auto.
        -- intros ([|e0 pre] & e' & post & Hexs & [_ He'] & Hpre); cbn in Hexs.
           ++ injection Hexs as -> ->. congruence.
           ++ injection Hexs as -> ->. inversion Hpre as [|? ? Hn].
              exfalso. apply (Hn r'). auto.
      * destruct (scan json_loads str_to_float rest) as [l r0] eqn:Es. cbn.
        cbn in IH. rewrite IH. split.
        -- intros (pre & e' & post & -> & Hc' & Hpre).
           exists (e :: pre), e', post. split; [reflexivity|]. split; [exact Hc'|].
           constructor; [|exact Hpre]. intros r1 [_ H1]. congruence.
        -- intros ([|e0 pre] & e' & post & Hexs & Hc' & Hpre); cbn in Hexs;
             injection Hexs as -> ->.
           ++ destruct Hc' as [_ H1]. congruence.
           ++ inversion Hpre; subst. exists pre, e', post. repeat split; tauto.
      * destruct (scan json_loads str_to_float rest) as [l r0] eqn:Es. cbn.
        cbn in IH. rewrite IH. split.
        -- intros (pre & e' & post & -> & Hc' & Hpre).
           exists (e :: pre), e', post. split; [reflexivity|]. split; [exact Hc'|].
           constructor; [|exact Hpre]. intros r1 [_ H1]. congruence.
        -- intros ([|e0 pre] & e' & post & Hexs & Hc' & Hpre); cbn in Hexs;
             injection Hexs as -> ->.
           ++ destruct Hc' as [_ H1]. congruence.
           ++ inversion Hpre; subst. exists pre, e', post. repeat split; tauto.
    + rewrite IH. split.
      * intros (pre & e' & post & -> & Hc' & Hpre).
        exists (e :: pre), e', post. split; [reflexivity|]. split; [exact Hc'|].
        constructor; [|exact Hpre]. intros r1 [H1 _]. congruence.
      * intros ([|e0 pre] & e' & post & Hexs & Hc' & Hpre); cbn in Hexs;
          injection Hexs as -> ->.
        -- destruct Hc' as [H1 _]. congruence.
        -- inversion Hpre; subst. exists pre, e', post. repeat split; tauto.
Qed.

(** C1 (amended): on the extraction list returned by the service,
    [extract_recipe] returns the recipe of the first extraction that
    [converts] (class "Recipe", payload decoding to a dict with a truthy
    title, fields converting to the pydantic models); every extraction
    before it is skipped.  In particular a dict without a title followed
    by a converting extraction yields the latter's recipe. *)
Theorem extract_recipe_selects_first_convertible json_loads str_to_float :
  (forall exs r,
     snd (on_outcome json_loads str_to_float (LxReturned (Some exs))) = Some r <->
     exists pre e post, exs = (pre ++ e :: post)%list /\
       converts json_loads str_to_float e r /\
       Forall (fun e' => forall r', ~ converts json_loads str_to_float e' r') pre) /\
  (forall text1 kvs1 e2 r,
     json_loads text1 = Some (JDict kvs1) -> assoc "title" kvs1 = None ->
     converts json_loads str_to_float e2 r ->
     snd (on_outcome json_loads str_to_float
            (LxReturned (Some [mkExtraction "Recipe" text1; e2]))) = Some r).
Proof.
  split.
  - intros exs r. cbn. apply scan_first.
  - intros text1 kvs1 e2 r Hl Ht Hc.
    change (snd (scan json_loads str_to_float [mkExtraction "Recipe" text1; e2]) = Some r).
    apply scan_first.
    exists [mkExtraction "Recipe" text1], e2, []. split; [reflexivity|].
    split; [exact Hc|]. constructor; [|constructor].
    intros r' (_ & kvs & t & Hl' & Ht' & _). cbn in Hl'. congruence.
Qed.

(** C1: the first extraction has class "Recipe", a payload that parses and
    a non-empty title, yet the recipe returned is the second one's. *)
Lemma extract_recipe_skips_titled_unconvertible :
  sample_loads payload_pancakes =
    Some (JDict [("title", JStr "Pancakes"); ("ingredients", JNull)]) /\
  option_map title
    (snd (on_outcome sample_loads sample_str_to_float
            (LxReturned (Some [mkExtraction "Recipe" payload_pancakes;
                               mkExtraction "Recipe" payload_waffles])))) =
    Some "Waffles".
Proof. split; vm_compute; reflexivity. Qed.

Lemma extract_recipe_selects_first_convertible_witness :
  snd (on_outcome sample_loads sample_str_to_float
         (LxReturned (Some [mkExtraction "Recipe" "{}";
                            mkExtraction "Recipe" payload_waffles]))) =
    Some (mkRecipe "Waffles" "" "" "" "" [] []).
Proof.
  apply (proj2 (extract_recipe_selects_first_convertible sample_loads sample_str_to_float)
           "{}" [] (mkExtraction "Recipe" payload_waffles)).
  - vm_compute. reflexivity.
  - reflexivity.
  - split; [reflexivity|]. exists [("title", JStr "Waffles")], (JStr "Waffles").
    vm_compute. repeat split; reflexivity.
Defined.

Lemma mapM_validate_str (l : list string) : mapM validate_str (List.map JStr l) = Some l.
Proof. induction l as [|x l IH]; cbn; [reflexivity|]. rewrite IH. reflexivity. Qed.

Lemma validate_opt_float_number str_to_float q f :
  number_float q = Some f -> validate_opt_float str_to_float q = Some (Some f).
Proof.
  destruct q; unfold number_float, validate_opt_float; intros H; try discriminate;
    first [rewrite H; reflexivity | congruence].
Qed.

Lemma on_outcome_single json_loads str_to_float text :
  snd (on_outcome json_loads str_to_float (LxReturned (Some [mkExtraction "Recipe" text]))) =
  match recipe_of_text json_loads str_to_float text with
  | Some (Some r) => Some r | _ => None
  end.
Proof.
  cbn. destruct (recipe_of_text json_loads str_to_float text) as [[r|]|]; reflexivity.
Qed.

(** C2 (amended): a single "Recipe" extraction whose payload is a dict with
    every field populated (strings, numeric quantities within the float
    range, a string list of steps) yields a recipe carrying the title,
    description, times, servings, ingredient names and units and the steps
    unchanged and in order; each quantity is stored as the float of the
    JSON number: a JSON float unchanged, a JSON integer as [float(q)]. *)
Theorem extract_recipe_populated json_loads str_to_float text kvs
    (t d p c s : string) (items : list json) (ings : list (string * float * string))
    (steps : list string) :
  json_loads text = Some (JDict kvs) ->
  assoc "title" kvs = Some (JStr t) -> t <> "" ->
  assoc "description" kvs = Some (JStr d) ->
  assoc "prep_time" kvs = Some (JStr p) ->
  assoc "cook_time" kvs = Some (JStr c) ->
  assoc "servings" kvs = Some (JStr s) ->
  assoc "ingredients" kvs = Some (JList items) ->
  Forall2 (fun it '(n, f, u) => exists ikvs q, it = JDict ikvs /\
             assoc "name" ikvs = Some (JStr n) /\ assoc "quantity" ikvs = Some q /\
             number_float q = Some f /\ assoc "unit" ikvs = Some (JStr u)) items ings ->
  assoc "instructions" kvs = Some (JList (List.map JStr steps)) ->
  snd (on_outcome json_loads str_to_float (LxReturned (Some [mkExtraction "Recipe" text]))) =
    Some (mkRecipe t d p c s
            (List.map (fun '(n, f, u) => mkIngredient n (Some f) (Some u)) ings) steps).
Proof.
  intros Hl Ht Hne Hd Hp Hc Hs Hi Hings Hst.
  rewrite on_outcome_single.
  assert (Hb : build_recipe str_to_float (JDict kvs) =
    Some (mkRecipe t d p c s
            (List.map (fun '(n, f, u) => mkIngredient n (Some f) (Some u)) ings) steps)).
  { unfold build_recipe. cbn. rewrite Hi. cbn.
    assert (Hm : mapM (ingredient_of str_to_float) items =
      Some (List.map (fun '(n, f, u) => mkIngredient n (Some f) (Some u)) ings)).
    { apply mapM_Some_2. clear Hi. induction Hings as [|it [[n f] u] items' ings' Hit _ IH];
        cbn; [constructor|]. constructor; [|exact IH].
      destruct Hit as (ikvs & q & -> & Hn & Hq & Hf & Hu).
      unfold ingredient_of, Ingredient_new. cbn. rewrite Hn, Hq, Hu. cbn.
      rewrite (validate_opt_float_number str_to_float q f Hf). reflexivity. }
    rewrite Hm. cbn. unfold Recipe_new.
    rewrite Ht, Hd, Hp, Hc, Hs, Hst. cbn. rewrite mapM_validate_str. reflexivity. }
  assert (Hr : recipe_of_text json_loads str_to_float text =
    Some (Some (mkRecipe t d p c s
            (List.map (fun '(n, f, u) => mkIngredient n (Some f) (Some u)) ings) steps))).
  { apply recipe_of_text_accept. exists kvs, (JStr t). repeat split; auto.
    cbn. apply negb_true_iff, String.eqb_neq. exact Hne. }
  rewrite Hr. reflexivity.
Qed.

Lemma extract_recipe_populated_witness :
  snd (on_outcome sample_loads sample_str_to_float
         (LxReturned (Some [mkExtraction "Recipe" payload_rice]))) =
    Some (mkRecipe "Rice" "Plain rice" "5 minutes" "20 minutes" "many"
            (List.map (fun '(n, f, u) => mkIngredient n (Some f) (Some u))
               [("rice", S754_finite false 4503599627370496 1, "g")])
            ["Boil"]).
Proof.
  apply (extract_recipe_populated sample_loads sample_str_to_float payload_rice
           [("title", JStr "Rice"); ("description", JStr "Plain rice");
            ("prep_time", JStr "5 minutes"); ("cook_time", JStr "20 minutes");
            ("servings", JStr "many");
            ("ingredients", JList [JDict [("name", JStr "rice");
                                          ("quantity", JInt 9007199254740993);
                                          ("unit", JStr "g")]]);
            ("instructions", JList [JStr "Boil"])]
           "Rice" "Plain rice" "5 minutes" "20 minutes" "many"
           [JDict [("name", JStr "rice"); ("quantity", JInt 9007199254740993);
                   ("unit", JStr "g")]]
           [("rice", S754_finite false 4503599627370496 1, "g")] ["Boil"]);
    try (vm_compute; reflexivity).
  - discriminate.
  - constructor; [|constructor].
    exists [("name", JStr "rice"); ("quantity", JInt 9007199254740993); ("unit", JStr "g")],
      (JInt 9007199254740993).
    vm_compute. repeat split; reflexivity.
Defined.

(** C2: the quantity 9007199254740993 of a fully populated payload comes
    out as the float 9007199254740992. *)
Lemma extract_recipe_rounds_large_quantity :
  sample_loads payload_rice = Some rice_json /\
  option_map (fun r => List.map (fun i => match quantity i with
                                          | Some f => float_int_value f
                                          | None => None end) (ingredients r))
    (snd (on_outcome sample_loads sample_str_to_float
            (LxReturned (Some [mkExtraction "Recipe" payload_rice])))) =
    Some [Some 9007199254740992%Z].
Proof. split; vm_compute; reflexivity. Qed.

(** ** Slug *)

Lemma filter_rstrip_filter (p : ascii -> bool) (t : string) :
  PyStr.filter p (PyStr.rstrip (PyStr.filter p t)) = PyStr.rstrip (PyStr.filter p t).
Proof.
  induction t as [|c r IH]; cbn; [reflexivity|].
  destruct (p c) eqn:Hp; [|exact IH]. cbn.
  destruct (String.eqb (PyStr.rstrip (PyStr.filter p r)) "" && PyStr.isspace c);
    cbn; [reflexivity|]. rewrite Hp, IH. reflexivity.
Qed.

(** C3 (amended): for a [Path] input, the slug is the spec's slug of the
    title with trailing spaces removed after the character filter
    ([.rstrip()]); an empty slug falls back to the input file's stem. *)
Theorem safe_title_of_path (title p : string) :
  safe_title_of title (PathObj p) =
    Some (spec_slug (PyStr.rstrip (PyStr.filter slug_keep title)) (path_stem p)).
Proof.
  unfold safe_title_of, slugify, spec_slug. rewrite filter_rstrip_filter.
  destruct (String.eqb _ ""); reflexivity.
Qed.

(** C3: a title with a trailing space gets no trailing underscore. *)
Lemma safe_title_trailing_space :
  safe_title_of "Pie " (PathObj "recipes/pie.txt") = Some "pie" /\
  spec_slug "Pie " (path_stem "recipes/pie.txt") = "pie_".
Proof. split; vm_compute; reflexivity. Qed.

(** ** Defaults of the recipe fields *)

Lemma build_recipe_inv str_to_float kvs r :
  build_recipe str_to_float (JDict kvs) = Some r ->
  (exists items,
     py_iter (match assoc "ingredients" kvs with Some v => v | None => JList [] end) = Some items /\
     Forall2 (fun it ing => ingredient_of str_to_float it = Some ing) items (ingredients r)) /\
  match assoc "title" kvs with Some v => v | None => JStr "" end = JStr (title r) /\
  match assoc "description" kvs with Some v => v | None => JStr "" end = JStr (description r) /\
  match assoc "prep_time" kvs with Some v => v | None => JStr "" end = JStr (prep_time r) /\
  match assoc "cook_time" kvs with Some v => v | None => JStr "" end = JStr (cook_time r) /\
  match assoc "servings" kvs with Some v => v | None => JStr "" end = JStr (servings r) /\
  validate_str_list (match assoc "instructions" kvs with Some v => v | None => JList [] end) =
    Some (instructions r).
Proof.
  unfold build_recipe, Recipe_new. cbn. intros H. inv_some H. subst r. cbn.
  rewrite <- !validate_str_Some. repeat split; auto.
  eexists; split; [eassumption|]. by apply mapM_Some_1.
Qed.

(** C5: every recipe returned by [extract_recipe] comes from one
    "Recipe" extraction of the service's result, whose payload is a dict
    [kvs] that [build_recipe] turns into that very recipe; every field the
    payload omits takes its default: "" for title, description,
    prep_time, cook_time and servings, the empty list for ingredients and
    instructions.  (A payload without a title is skipped before
    [build_recipe], so for a returned recipe the title default is never
    reached.) *)
Theorem extract_recipe_field_defaults lx json_loads str_to_float self text r :
  snd (run_extract lx (extract_recipe json_loads str_to_float self text)) = Some r ->
  exists exs e kvs,
    lx text (model self) (api_key self) = LxReturned (Some exs) /\
    In e exs /\ extraction_class e = "Recipe" /\
    json_loads (extraction_text e) = Some (JDict kvs) /\
    build_recipe str_to_float (JDict kvs) = Some r /\
    (assoc "title" kvs = None -> title r = "") /\
    (assoc "description" kvs = None -> description r = "") /\
    (assoc "prep_time" kvs = None -> prep_time r = "") /\
    (assoc "cook_time" kvs = None -> cook_time r = "") /\
    (assoc "servings" kvs = None -> servings r = "") /\
    (assoc "ingredients" kvs = None -> ingredients r = []) /\
    (assoc "instructions" kvs = None -> instructions r = []).
Proof.
  intros H. apply run_extract_some in H as (exs & Hlx & H).
  apply scan_some in H as (e & Hin & Hc & H).
  apply recipe_of_text_accept in H as (kvs & t & Hl & _ & _ & Hb).
  exists exs, e, kvs. do 5 (split; [assumption|]).
  apply build_recipe_inv in Hb as ((items & Hit & Hf) & Ht & Hd & Hp & Hco & Hs & Hi).
  repeat split; intros E; rewrite E in *; cbn in *; try congruence.
  - injection Hit as <-. exact (Forall2_nil_inv_l _ _ Hf).
  - change (Some [] = Some (instructions r)) in Hi. congruence.
Qed.

Lemma extract_recipe_field_defaults_witness :
  snd (run_extract sample_lx
         (extract_recipe sample_loads sample_str_to_float sample_extractor sample_text)) =
    Some (mkRecipe "Waffles" "" "" "" "" [] []) /\
  exists exs e kvs,
    sample_lx sample_text (model sample_extractor) (api_key sample_extractor) =
      LxReturned (Some exs) /\
    In e exs /\ extraction_class e = "Recipe" /\
    sample_loads (extraction_text e) = Some (JDict kvs) /\
    build_recipe sample_str_to_float (JDict kvs) = Some (mkRecipe "Waffles" "" "" "" "" [] []) /\
    (assoc "title" kvs = None -> title (mkRecipe "Waffles" "" "" "" "" [] []) = "") /\
    (assoc "description" kvs = None -> description (mkRecipe "Waffles" "" "" "" "" [] []) = "") /\
    (assoc "prep_time" kvs = None -> prep_time (mkRecipe "Waffles" "" "" "" "" [] []) = "") /\
    (assoc "cook_time" kvs = None -> cook_time (mkRecipe "Waffles" "" "" "" "" [] []) = "") /\
    (assoc "servings" kvs = None -> servings (mkRecipe "Waffles" "" "" "" "" [] []) = "") /\
    (assoc "ingredients" kvs = None -> ingredients (mkRecipe "Waffles" "" "" "" "" [] []) = []) /\
    (assoc "instructions" kvs = None -> instructions (mkRecipe "Waffles" "" "" "" "" [] []) = []).
Proof.
  assert (H : snd (run_extract sample_lx
                     (extract_recipe sample_loads sample_str_to_float sample_extractor
                        sample_text)) = Some (mkRecipe "Waffles" "" "" "" "" [] []))
    by (vm_compute; reflexivity).
  split; [exact H|].
  exact (extract_recipe_field_defaults _ _ _ _ _ _ H).
Defined.

(** ** Ingredients without quantity or unit *)

(** C6: an ingredient dict without "quantity" (or "unit") gives an
    [Ingredient] with that field [None]; the absence never makes the
    conversion fail; and the recipe's ingredients correspond one to one,
    in order, to the items of the payload's ingredient list. *)
Theorem ingredient_missing_fields str_to_float :
  (forall ikvs ing, ingredient_of str_to_float (JDict ikvs) = Some ing ->
     (assoc "quantity" ikvs = None -> quantity ing = None) /\
     (assoc "unit" ikvs = None -> unit ing = None)) /\
  (forall ikvs n,
     match assoc "name" ikvs with Some v => v | None => JStr "" end = JStr n ->
     (forall q, assoc "quantity" ikvs = Some q -> validate_opt_float str_to_float q <> None) ->
     (forall u, assoc "unit" ikvs = Some u -> validate_opt_str u <> None) ->
     exists ing, ingredient_of str_to_float (JDict ikvs) = Some ing /\ name ing = n) /\
  (forall kvs r, build_recipe str_to_float (JDict kvs) = Some r ->
     exists items,
       py_iter (match assoc "ingredients" kvs with Some v => v | None => JList [] end) =
         Some items /\
       Forall2 (fun it ing => ingredient_of str_to_float it = Some ing) items (ingredients r)).
Proof.
  split; [|split].
  - intros ikvs ing H. unfold ingredient_of, Ingredient_new in H. cbn in H.
    inv_some H. subst ing. cbn. split; intros Hm; rewrite Hm in *; cbn in *; congruence.
  - intros ikvs n Hn Hq Hu. unfold ingredient_of, Ingredient_new. cbn. rewrite Hn. cbn.
    destruct (validate_opt_float str_to_float
                (match assoc "quantity" ikvs with Some v => v | None => JNull end))
      as [q|] eqn:Eq.
    + destruct (validate_opt_str
                  (match assoc "unit" ikvs with Some v => v | None => JNull end))
        as [u|] eqn:Eu.
      * cbn. eauto.
      * exfalso. destruct (assoc "unit" ikvs) as [v|]; [by eapply Hu|discriminate].
    + exfalso. destruct (assoc "quantity" ikvs) as [v|]; [by eapply Hq|discriminate].
  - intros kvs r H. apply build_recipe_inv in H. tauto.
Qed.

Lemma ingredient_missing_fields_witness :
  exists ing, ingredient_of sample_str_to_float (JDict [("name", JStr "salt")]) = Some ing /\
    name ing = "salt".
Proof.
  apply (proj1 (proj2 (ingredient_missing_fields sample_str_to_float))).
  - reflexivity.
  - intros q Hq. discriminate.
  - intros u Hu. discriminate.
Defined.

(** ** Exit codes of [main] *)

Lemma parse_recipe_true json_loads str_to_float json_dump html lx out input_file
    output_dir key m fs fs' :
  parse_recipe json_loads str_to_float json_dump html lx out input_file output_dir key m fs =
    (fs', true) ->
  exists text r safe fs1 fs2,
    read_file fs (path_string input_file) = Some text /\
    String.eqb (PyStr.strip text) "" = false /\
    snd (run_extract lx (extract_recipe json_loads str_to_float
                           (mkRecipeExtractor key m) text)) = Some r /\
    mkdir_p fs output_dir = Some fs1 /\
    safe_title_of (title r) input_file = Some safe /\
    write_file fs1 (path_join output_dir (safe ++ ".json")) (json_dump (Recipe_dump r)) =
      Some fs2 /\
    write_file fs2 (path_join output_dir (safe ++ ".html")) (html r text) = Some fs' /\
    out (summary_lines r (path_join output_dir (safe ++ ".json"))
           (path_join output_dir (safe ++ ".html"))) = true.
Proof.
  unfold parse_recipe.
  destruct (read_file fs (path_string input_file)) as [text|]; [|congruence].
  destruct (String.eqb (PyStr.strip text) "") eqn:Es; [congruence|].
  destruct (snd (run_extract lx _)) as [r|] eqn:Er; [|congruence].
  destruct (mkdir_p fs output_dir) as [fs1|] eqn:Em; [|congruence].
  destruct (safe_title_of (title r) input_file) as [safe|] eqn:Et; [|congruence].
  destruct (write_file fs1 _ _) as [fs2|] eqn:Ej; [|congruence].
  destruct (write_file fs2 _ _) as [fs3|] eqn:Eh; [|congruence].
  destruct (out _) eqn:Eo; [|congruence].
  intros [= ->]. exists text, r, safe, fs1, fs2. auto 8.
Qed.

(** C8: [main] exits with 1 at once, without calling [parse_recipe], when
    the API key is unset or empty; otherwise it exits with 0 exactly when
    [parse_recipe] returns [True], and with 1 otherwise, in particular when
    the extraction gives no recipe. *)
Theorem main_exit_codes json_loads str_to_float json_dump html lx out env fs :
  ((env = None \/ env = Some "") -> main env = Exit 1) /\
  (snd (run_main json_loads str_to_float json_dump html lx out env fs) = 0%Z <->
     exists key, env = Some key /\ key <> "" /\
       snd (parse_recipe json_loads str_to_float json_dump html lx out
              (PyStrPath "recipe.txt") "output" key "gemini-2.5-flash" fs) = true) /\
  (snd (run_main json_loads str_to_float json_dump html lx out env fs) = 0%Z \/
   snd (run_main json_loads str_to_float json_dump html lx out env fs) = 1%Z) /\
  (forall key text, env = Some key ->
     read_file fs "recipe.txt" = Some text ->
     snd (run_extract lx (extract_recipe json_loads str_to_float
                            (mkRecipeExtractor key "gemini-2.5-flash") text)) = None ->
     snd (run_main json_loads str_to_float json_dump html lx out env fs) = 1%Z).
Proof.
  unfold run_main, main.
  split; [|split; [|split]].
  - intros [-> | ->]; reflexivity.
  - destruct env as [key|]; cbn; [|split; [discriminate|intros (? & ? & _); discriminate]].
    destruct (String.eqb_spec key "") as [->|Hk]; cbn.
    + split; [discriminate|]. intros (k & [= <-] & Hk & _). congruence.
    + remember (parse_recipe json_loads str_to_float json_dump html lx out
                  (PyStrPath "recipe.txt") "output" key "gemini-2.5-flash" fs) as pr.
      destruct pr as [fs' ok]. cbn.
      split.
      * intros H. exists key. destruct ok; [|discriminate].
        repeat split; auto. rewrite <- Heqpr. reflexivity.
      * intros (k & [= <-] & _ & H). rewrite <- Heqpr in H. cbn in H. subst ok.
        reflexivity.
  - destruct env as [key|]; cbn; [|auto].
    destruct (String.eqb key ""); cbn; [auto|].
    destruct (parse_recipe json_loads str_to_float json_dump html lx out
                (PyStrPath "recipe.txt") "output" key "gemini-2.5-flash" fs) as [fs' ok].
    destruct ok; auto.
  - intros key text -> Hr He. cbn.
    destruct (String.eqb key ""); cbn; [reflexivity|].
    destruct (parse_recipe json_loads str_to_float json_dump html lx out
                (PyStrPath "recipe.txt") "output" key "gemini-2.5-flash" fs)
      as [fs' ok] eqn:Ep.
    destruct ok; [|reflexivity].
    apply parse_recipe_true in Ep as (text' & r & _ & _ & _ & Hr' & _ & He' & _).
    change (read_file fs "recipe.txt" = Some text') in Hr'.
    rewrite Hr in Hr'. injection Hr' as <-. congruence.
Qed.

(** ** The JSON output file *)

Lemma string_app_length (a b : string) :
  String.length (a ++ b) = String.length a + String.length b.
Proof. induction a as [|c a IH]; simpl; [reflexivity|]. rewrite IH. reflexivity. Qed.

Lemma string_app_cancel (a x y : string) : a ++ x = a ++ y -> x = y.
Proof. induction a as [|c a IH]; cbn; auto. intros H. injection H. auto. Qed.

Lemma path_join_not_dir (d n : string) : d <> path_join d n.
Proof.
  unfold path_join. intros H. apply (f_equal String.length) in H.
  rewrite !string_app_length in H. cbn in H. lia.
Qed.

Lemma json_file_not_html_file (d s : string) :
  path_join d (s ++ ".json") <> path_join d (s ++ ".html").
Proof.
  unfold path_join. intros H.
  apply string_app_cancel in H. apply (string_app_cancel "/") in H.
  apply string_app_cancel in H.
  discriminate.
Qed.

(** *** Directories *)

Lemma ancestors_rev_prefix (r : list ascii) (a : string) :
  In a (ancestors_rev r) ->
  exists x r', r = (x ++ "/"%char :: r')%list /\ a = string_of_list_ascii (rev r').
Proof.
  induction r as [|c r IH]; cbn; [contradiction|].
  destruct (Ascii.eqb_spec c "/") as [->|Hc].
  - intros [H|[<-|[]]]%in_app_or.
    + destruct (IH H) as (x & r' & -> & ->). by exists ("/"%char :: x), r'.
    + by exists [], r.
  - intros H. destruct (IH H) as (x & r' & -> & ->). by exists (c :: x), r'.
Qed.

Lemma ancestors_below (d a : string) :
  In a (ancestors d) -> exists r, d = a ++ "/" ++ r.
Proof.
  unfold ancestors. intros H. apply ancestors_rev_prefix in H as (x & r' & Hr & ->).
  exists (string_of_list_ascii (rev x)).
  assert (E : list_ascii_of_string d =
              list_ascii_of_string (string_of_list_ascii (rev r') ++ "/" ++
                                    string_of_list_ascii (rev x))).
  { rewrite <- (rev_involutive (list_ascii_of_string d)), Hr.
    rewrite !list_ascii_of_string_app, !list_ascii_of_string_of_list_ascii.
    rewrite rev_app_distr. cbn. by rewrite <- app_assoc. }
  rewrite <- (string_of_list_ascii_of_string d), E. apply string_of_list_ascii_of_string.
Qed.

Lemma ancestors_shorter (d a : string) :
  In a (ancestors d) -> String.length a < String.length d.
Proof.
  intros H. apply ancestors_below in H as (r & ->).
  rewrite !string_app_length. cbn. lia.
Qed.

Lemma parent_below (d : string) :
  is_root (path_parent d) = false -> exists r, d = path_parent d ++ "/" ++ r.
Proof.
  unfold path_parent. destruct (last (ancestors d)) as [a|] eqn:E; [|discriminate].
  destruct (String.eqb_spec a "") as [_|Ha]; [discriminate|]. intros _.
  apply ancestors_below, list_elem_of_In. by eapply last_Some_elem_of.
Qed.

Lemma is_root_below (a r : string) : is_root (a ++ "/" ++ r) = true -> a = "".
Proof.
  destruct a as [|c a]; [reflexivity|]. rewrite str_app_cons. unfold is_root.
  destruct a as [|c' a]; cbn; rewrite ?andb_false_r; [|rewrite ?str_app_cons; cbn].
  - destruct (Ascii.eqb c "."), (Ascii.eqb c "/"); cbn; discriminate.
  - rewrite ?andb_false_r. destruct (Ascii.eqb c "."), (Ascii.eqb c "/"); cbn;
      rewrite ?andb_false_r; discriminate.
Qed.

Lemma below_trans (a b d r1 r2 : string) :
  b = a ++ "/" ++ r1 -> d = b ++ "/" ++ r2 -> d = a ++ "/" ++ (r1 ++ "/" ++ r2).
Proof. intros -> ->. rewrite !str_app_assoc. reflexivity. Qed.

Lemma node_None fs p :
  node fs p = None -> files fs !! p = None /\ is_root p = false /\ p ∉ dirs fs.
Proof.
  unfold node. destruct (files fs !! p); [discriminate|].
  destruct (is_root p); [discriminate|]. case_bool_decide; [discriminate|]. auto.
Qed.

Lemma node_mono fs fs' p :
  files fs' = files fs -> dirs fs ⊆ dirs fs' -> node fs p = Some KDir -> node fs' p = Some KDir.
Proof.
  unfold node. intros Hf Hd. rewrite Hf. destruct (files fs !! p); [discriminate|].
  destruct (is_root p); [auto|]. cbn. case_bool_decide; [|discriminate].
  rewrite bool_decide_true by set_solver. auto.
Qed.

Lemma walk_mono fs fs' ancs :
  files fs' = files fs -> dirs fs ⊆ dirs fs' -> walk fs ancs = None -> walk fs' ancs = None.
Proof.
  intros Hf Hd. induction ancs as [|a rest IH]; cbn; [auto|].
  destruct (node fs a) as [[]|] eqn:Hn; try discriminate.
  rewrite (node_mono fs fs' a Hf Hd Hn). exact IH.
Qed.

Lemma is_dir_node fs d :
  is_dir fs d = true <-> walk fs (ancestors d) = None /\ node fs d = Some KDir.
Proof.
  unfold is_dir. destruct (walk fs (ancestors d)); [split; [discriminate|intros []; discriminate]|].
  destruct (node fs d) as [[]|]; split; try discriminate; try (intros []; discriminate); auto.
Qed.

Lemma is_dir_mono fs fs' d :
  files fs' = files fs -> dirs fs ⊆ dirs fs' -> is_dir fs d = true -> is_dir fs' d = true.
Proof.
  intros Hf Hd [Hw Hn]%is_dir_node. apply is_dir_node.
  split; [exact (walk_mono _ _ _ Hf Hd Hw)|exact (node_mono _ _ _ Hf Hd Hn)].
Qed.

Lemma mkdir_go_is_dir n b fs d : is_dir fs d = true -> mkdir_go n b fs d = Some fs.
Proof.
  intros H. pose proof H as [Hw Hn]%is_dir_node.
  destruct n; cbn [mkdir_go]; unfold os_mkdir; rewrite Hw, Hn, H; reflexivity.
Qed.

Lemma mkdir_p_is_dir fs d : is_dir fs d = true -> mkdir_p fs d = Some fs.
Proof. apply mkdir_go_is_dir. Qed.

Lemma os_mkdir_inr fs d fs' :
  os_mkdir fs d = inr fs' ->
  fs' = mkFS (files fs) ({[d]} ∪ dirs fs) /\ walk fs (ancestors d) = None /\ node fs d = None.
Proof.
  unfold os_mkdir. destruct (walk fs (ancestors d)); [discriminate|].
  destruct (node fs d); [discriminate|]. intros [= <-]. auto.
Qed.

(** What a successful [mkdir(parents=..., exist_ok=True)] does: no file
    changes, no directory goes, [d] is a directory afterwards, and every
    new directory is [d] or one of its ancestors (never a root). *)
Lemma mkdir_go_Some n b fs d fs' :
  mkdir_go n b fs d = Some fs' ->
  files fs' = files fs /\ dirs fs ⊆ dirs fs' /\ is_dir fs' d = true /\
  (forall a, a ∈ dirs fs' -> a ∉ dirs fs ->
     is_root a = false /\ (a = d \/ exists r, d = a ++ "/" ++ r)).
Proof.
  revert b fs d fs'. induction n as [|n IH]; intros b fs d fs'; cbn [mkdir_go];
    destruct (os_mkdir fs d) as [e|fs1] eqn:Em.
  2, 4: intros [= <-]; apply os_mkdir_inr in Em as (-> & Hw & Hn);
    apply node_None in Hn as (Hf & Hr & Hd); cbn;
    (split; [reflexivity|]); (split; [set_solver|]); split;
    [apply is_dir_node; split;
       [exact (walk_mono fs (mkFS (files fs) ({[d]} ∪ dirs fs)) _ eq_refl ltac:(cbn; set_solver) Hw)
       |unfold node; cbn; rewrite Hf, Hr, bool_decide_true by set_solver; reflexivity]
    |intros a Ha Ha'; assert (a = d) as -> by set_solver; auto].
  - destruct e; [destruct (negb b || _); discriminate| |];
      (destruct (is_dir fs d) eqn:Hd; [intros [= <-]|discriminate]);
      (split; [reflexivity|]); (split; [set_solver|]); (split; [exact Hd|]);
      intros a Ha Ha'; contradiction.
  - destruct e.
    + destruct (negb b || String.eqb (path_parent d) d); [discriminate|].
      destruct (mkdir_go n true fs (path_parent d)) as [fs1|] eqn:E1; [|discriminate].
      intros E2.
      destruct (IH _ _ _ _ E1) as (Hf1 & Hd1 & _ & Hn1).
      destruct (IH _ _ _ _ E2) as (Hf2 & Hd2 & Hdir & Hn2).
      split; [congruence|]. split; [set_solver|]. split; [exact Hdir|].
      intros a Ha Ha'. destruct (decide (a ∈ dirs fs1)) as [Ha1|Ha1].
      * destruct (Hn1 a Ha1 Ha') as [Hr [Hp|(r1 & Hp)]]; split; [exact Hr| |exact Hr|].
        -- subst a. right. by apply parent_below.
        -- right. destruct (is_root (path_parent d)) eqn:Hroot.
           ++ rewrite Hp in Hroot. apply is_root_below in Hroot. subst a. discriminate.
           ++ destruct (parent_below d Hroot) as [r2 Hd].
              exists (r1 ++ "/" ++ r2). exact (below_trans _ _ _ _ _ Hp Hd).
      * exact (Hn2 a Ha Ha1).
    + destruct (is_dir fs d) eqn:Hd; [intros [= <-]|discriminate].
      split; [reflexivity|]. split; [set_solver|]. split; [exact Hd|].
      intros a Ha Ha'; contradiction.
    + destruct (is_dir fs d) eqn:Hd; [intros [= <-]|discriminate].
      split; [reflexivity|]. split; [set_solver|]. split; [exact Hd|].
      intros a Ha Ha'; contradiction.
Qed.

(** When every ancestor of [d] is a directory and [d] is no file, no root,
    the directories afterwards are those before and [d]. *)
Lemma mkdir_p_new fs d :
  walk fs (ancestors d) = None -> files fs !! d = None -> is_root d = false ->
  mkdir_p fs d = Some (mkFS (files fs) ({[d]} ∪ dirs fs)).
Proof.
  intros Hw Hf Hr. destruct (decide (d ∈ dirs fs)) as [Hd|Hd].
  - rewrite mkdir_p_is_dir.
    + destruct fs as [F D]. cbn in *. rewrite (subseteq_union_1_L {[d]} D) by set_solver.
      reflexivity.
    + apply is_dir_node. split; [exact Hw|]. unfold node. rewrite Hf, Hr.
      cbn. rewrite bool_decide_true by exact Hd. reflexivity.
  - unfold mkdir_p. destruct (String.length d); cbn [mkdir_go]; unfold os_mkdir;
      rewrite Hw; unfold node; rewrite Hf, Hr; cbn; rewrite bool_decide_false by exact Hd;
      reflexivity.
Qed.

Lemma mkdir_p_file fs d v : files fs !! d = Some v -> mkdir_p fs d = None.
Proof.
  intros Hv. destruct (mkdir_p fs d) as [fs'|] eqn:E; [|reflexivity].
  apply mkdir_go_Some in E as (Hf & _ & Hd & _). apply is_dir_node in Hd as [_ Hn].
  unfold node in Hn. rewrite Hf, Hv in Hn. discriminate.
Qed.

Lemma walk_insert fs ancs p c :
  walk fs ancs = None -> ~ In p ancs ->
  walk (mkFS (<[p := c]> (files fs)) (dirs fs)) ancs = None.
Proof.
  induction ancs as [|a rest IH]; cbn; [auto|]. intros Hw Hp.
  destruct (node fs a) as [[]|] eqn:Hn; try discriminate.
  unfold node in *. cbn. rewrite lookup_insert_ne by (intros ->; tauto).
  rewrite Hn. auto.
Qed.

(** Writing a file inside a directory keeps it a directory. *)
Lemma is_dir_write_below fs d n c fs' :
  is_dir fs d = true -> write_file fs (path_join d n) c = Some fs' -> is_dir fs' d = true.
Proof.
  intros [Hw Hn]%is_dir_node. unfold write_file. case_bool_decide; [discriminate|].
  intros [= <-]. apply is_dir_node. split.
  - apply walk_insert; [exact Hw|]. intros Hin. apply ancestors_shorter in Hin.
    unfold path_join in Hin. rewrite !string_app_length in Hin. lia.
  - unfold node in *. cbn.
    rewrite lookup_insert_ne by (intros E; symmetry in E; exact (path_join_not_dir _ _ E)).
    exact Hn.
Qed.

Lemma write_file_Some fs p c fs' :
  write_file fs p c = Some fs' ->
  (p ∉ dirs fs) /\ fs' = mkFS (<[p := c]> (files fs)) (dirs fs).
Proof.
  unfold write_file. case_bool_decide; [discriminate|]. intros [= <-]. auto.
Qed.

(** C9: the JSON file is a function of the input text and the service's
    answer: two successful runs of [parse_recipe] that read the same input
    text, from any file systems, leave the same bytes at the same JSON path
    (the file is truncated, not appended to); and a second run on the file
    system left by a successful first run, its input file unchanged,
    succeeds and leaves the file system exactly as it was. *)
Theorem parse_recipe_json_deterministic json_loads str_to_float json_dump html lx out
    input_file output_dir key m text fs1 fs2 fs1' fs2' :
  read_file fs1 (path_string input_file) = Some text ->
  read_file fs2 (path_string input_file) = Some text ->
  parse_recipe json_loads str_to_float json_dump html lx out input_file output_dir key m fs1 =
    (fs1', true) ->
  parse_recipe json_loads str_to_float json_dump html lx out input_file output_dir key m fs2 =
    (fs2', true) ->
  (exists r safe,
     snd (run_extract lx (extract_recipe json_loads str_to_float
                            (mkRecipeExtractor key m) text)) = Some r /\
     safe_title_of (title r) input_file = Some safe /\
     files fs1' !! path_join output_dir (safe ++ ".json") = Some (json_dump (Recipe_dump r)) /\
     files fs2' !! path_join output_dir (safe ++ ".json") = Some (json_dump (Recipe_dump r))) /\
  (read_file fs1' (path_string input_file) = Some text ->
   parse_recipe json_loads str_to_float json_dump html lx out input_file output_dir key m fs1' =
     (fs1', true)).
Proof.
  intros Hr1 Hr2 H1 H2.
  apply parse_recipe_true in H1
    as (t1 & r1 & s1 & g1 & h1 & Hr1' & Hs1 & He1 & Hm1 & Ht1 & Hj1 & Hh1 & Ho1).
  apply parse_recipe_true in H2
    as (t2 & r2 & s2 & g2 & h2 & Hr2' & Hs2 & He2 & Hm2 & Ht2 & Hj2 & Hh2 & _).
  rewrite Hr1 in Hr1'. injection Hr1' as <-. rewrite Hr2 in Hr2'. injection Hr2' as <-.
  rewrite He1 in He2. injection He2 as <-. rewrite Ht1 in Ht2. injection Ht2 as <-.
  pose proof (json_file_not_html_file output_dir s1) as Hne.
  apply mkdir_go_Some in Hm1 as (_ & _ & Hdir1 & _).
  pose proof (is_dir_write_below _ _ _ _ _ Hdir1 Hj1) as Hdir2.
  pose proof (is_dir_write_below _ _ _ _ _ Hdir2 Hh1) as Hdir3.
  apply write_file_Some in Hj1 as [Hj1 ->]. apply write_file_Some in Hj2 as [Hj2 ->].
  apply write_file_Some in Hh1 as [Hh1 ->]. apply write_file_Some in Hh2 as [Hh2 ->].
  split.
  - exists r1, s1. cbn. repeat split; auto;
      rewrite lookup_insert_ne by congruence; apply lookup_insert_eq.
  - intros Hr1'. unfold parse_recipe. rewrite Hr1', Hs1, He1.
    cbn -[mkdir_p summary_lines path_join].
    rewrite mkdir_p_is_dir by exact Hdir3. rewrite Ht1.
    unfold write_file. cbn -[summary_lines path_join].
    rewrite !bool_decide_false by assumption.
    rewrite (insert_insert_ne _ (path_join output_dir (s1 ++ ".json"))
               (path_join output_dir (s1 ++ ".html"))) by exact Hne.
    cbn -[summary_lines path_join]. rewrite !insert_insert_eq, Ho1. reflexivity.
Qed.

Lemma parse_recipe_json_deterministic_witness :
  let run fs := parse_recipe sample_loads sample_str_to_float sample_json_dump sample_html
                  sample_lx sample_out (PyStrPath "recipe.txt") "output" "test-key"
                  "gemini-2.5-flash" fs in
  read_file sample_fs "recipe.txt" = Some sample_text /\
  read_file sample_fs_stale "recipe.txt" = Some sample_text /\
  run sample_fs = (fst (run sample_fs), true) /\
  run sample_fs_stale = (fst (run sample_fs_stale), true) /\
  files (fst (run sample_fs_stale)) !! "output/waffles.json" = 
    Some (sample_json_dump (Recipe_dump (mkRecipe "Waffles" "" "" "" "" [] []))) /\
  ((exists r safe,
     snd (run_extract sample_lx (extract_recipe sample_loads sample_str_to_float
                                   (mkRecipeExtractor "test-key" "gemini-2.5-flash")
                                   sample_text)) = Some r /\
     safe_title_of (title r) (PyStrPath "recipe.txt") = Some safe /\
     files (fst (run sample_fs)) !! path_join "output" (safe ++ ".json") =
       Some (sample_json_dump (Recipe_dump r)) /\
     files (fst (run sample_fs_stale)) !! path_join "output" (safe ++ ".json") =
       Some (sample_json_dump (Recipe_dump r))) /\
   (read_file (fst (run sample_fs)) (path_string (PyStrPath "recipe.txt")) = Some sample_text ->
    run (fst (run sample_fs)) = (fst (run sample_fs), true))).
Proof.
  intros run.
  assert (H1 : read_file sample_fs "recipe.txt" = Some sample_text) by (vm_compute; reflexivity).
  assert (H2 : read_file sample_fs_stale "recipe.txt" = Some sample_text)
    by (vm_compute; reflexivity).
  assert (H3 : run sample_fs = (fst (run sample_fs), true)) by (vm_compute; reflexivity).
  assert (H4 : run sample_fs_stale = (fst (run sample_fs_stale), true))
    by (vm_compute; reflexivity).
  split; [exact H1|]. split; [exact H2|]. split; [exact H3|]. split; [exact H4|].
  split; [vm_compute; reflexivity|].
  exact (parse_recipe_json_deterministic sample_loads sample_str_to_float sample_json_dump
           sample_html sample_lx sample_out (PyStrPath "recipe.txt") "output" "test-key"
           "gemini-2.5-flash" sample_text sample_fs sample_fs_stale _ _ H1 H2 H3 H4).
Defined.


(** * Further properties of the code *)

Lemma filter_Forall (p : ascii -> bool) (s : string) :
  Forall (fun c => p c = true) (list_ascii_of_string (PyStr.filter p s)).
Proof.
  induction s as [|c s IH]; cbn; [constructor|].
  destruct (p c) eqn:Hp; cbn; [constructor|]; auto.
Qed.

Lemma filter_id (p : ascii -> bool) (s : string) :
  Forall (fun c => p c = true) (list_ascii_of_string s) -> PyStr.filter p s = s.
Proof.
  induction s as [|c s IH]; cbn; [reflexivity|]. intros Hf. inversion Hf; subst.
  match goal with H : p c = true |- _ => rewrite H end. by rewrite IH.
Qed.

Lemma rstrip_Forall (P : ascii -> Prop) (s : string) :
  Forall P (list_ascii_of_string s) -> Forall P (list_ascii_of_string (PyStr.rstrip s)).
Proof.
  induction s as [|c s IH]; cbn; [constructor|]. intros Hf. inversion Hf; subst.
  destruct (String.eqb _ "" && _); cbn; [constructor|]. constructor; auto.
Qed.

Lemma rstrip_id (s : string) :
  Forall (fun c => PyStr.isspace c = false) (list_ascii_of_string s) -> PyStr.rstrip s = s.
Proof.
  induction s as [|c s IH]; cbn; [reflexivity|]. intros Hf. inversion Hf; subst.
  rewrite IH by assumption.
  match goal with H : PyStr.isspace c = false |- _ => rewrite H end.
  by rewrite andb_false_r.
Qed.

Lemma map_Forall (P Q : ascii -> Prop) (f : ascii -> ascii) (s : string) :
  (forall c, P c -> Q (f c)) ->
  Forall P (list_ascii_of_string s) -> Forall Q (list_ascii_of_string (PyStr.map f s)).
Proof.
  intros Hf. induction s as [|c s IH]; cbn; [constructor|]. intros Hs. inversion Hs; subst.
  constructor; auto.
Qed.

Lemma map_id (f : ascii -> ascii) (s : string) :
  Forall (fun c => f c = c) (list_ascii_of_string s) -> PyStr.map f s = s.
Proof.
  induction s as [|c s IH]; cbn; [reflexivity|]. intros Hf. inversion Hf; subst.
  f_equal; auto.
Qed.

(** ** Slugs *)

Lemma slug_ok_lower (c : ascii) :
  (slug_keep c && negb (Ascii.eqb c " ")) = true -> slug_ok (PyStr.lower_char c) = true.
Proof. destruct c as [[] [] [] [] [] [] [] []]; vm_compute; congruence. Qed.

Lemma slug_ok_spec (c : ascii) :
  slug_ok c = true ->
  slug_keep c = true /\ PyStr.isspace c = false /\ Ascii.eqb c " " = false /\
  PyStr.lower_char c = c /\
  (PyStr.isalnum c || Ascii.eqb c "-" || Ascii.eqb c "_") = true.
Proof.
  destruct c as [[] [] [] [] [] [] [] []]; vm_compute; intros H;
    try discriminate; repeat split; reflexivity.
Qed.

Lemma slugify_slug_ok (t : string) :
  Forall (fun c => slug_ok c = true) (list_ascii_of_string (slugify t)).
Proof.
  unfold slugify, PyStr.lower, PyStr.replace_char.
  eapply map_Forall; [intros c Hc; exact (slug_ok_lower c Hc)|].
  eapply map_Forall; [|apply rstrip_Forall, filter_Forall].
  intros c Hc. cbn beta. destruct (Ascii.eqb_spec c " ") as [->|Hne]; [reflexivity|].
  rewrite Hc. cbn. by apply negb_true_iff, Ascii.eqb_neq.
Qed.

Lemma slug_ok_not_slash (s : string) :
  Forall (fun c => slug_ok c = true) (list_ascii_of_string s) ->
  Forall (fun c => c <> "/"%char) (list_ascii_of_string s).
Proof.
  intros H. eapply Forall_impl; [exact H|]. intros c Hc ->. vm_compute in Hc. discriminate Hc.
Qed.

Lemma take_while_Forall (f : ascii -> bool) (l : list ascii) :
  Forall (fun c => f c = true) (take_while f l).
Proof.
  induction l as [|c l IH]; cbn; [constructor|]. destruct (f c) eqn:Hf; constructor; auto.
Qed.

Lemma take_while_app (f : ascii -> bool) (l1 l2 : list ascii) (x : ascii) :
  Forall (fun c => f c = true) l1 -> f x = false -> take_while f (l1 ++ x :: l2) = l1.
Proof.
  intros H1 Hx. induction H1 as [|c l1 Hc _ IH]; cbn; [by rewrite Hx|]. by rewrite Hc, IH.
Qed.

Lemma path_name_no_slash (p : string) :
  Forall (fun c => c <> "/"%char) (list_ascii_of_string (path_name p)).
Proof.
  unfold path_name. rewrite list_ascii_of_string_of_list_ascii. apply Forall_rev.
  eapply Forall_impl; [apply take_while_Forall|]. cbn. intros c Hc ->. discriminate Hc.
Qed.

Lemma path_stem_no_slash (p : string) :
  Forall (fun c => c <> "/"%char) (list_ascii_of_string (path_stem p)).
Proof.
  unfold path_stem. pose proof (path_name_no_slash p) as Hn.
  destruct (last_dot _ 0 None) as [i|]; [|exact Hn].
  destruct (Nat.ltb 0 i && _); [|exact Hn].
  rewrite list_ascii_of_string_of_list_ascii. by apply Forall_take.
Qed.

Lemma path_name_join (d n : string) :
  Forall (fun c => c <> "/"%char) (list_ascii_of_string n) -> path_name (path_join d n) = n.
Proof.
  intros Hn. unfold path_name, path_join.
  rewrite !list_ascii_of_string_app. cbn [list_ascii_of_string app].
  rewrite rev_app_distr. cbn [rev]. rewrite <- app_assoc. cbn [app].
  rewrite take_while_app.
  - by rewrite rev_involutive, string_of_list_ascii_of_string.
  - apply Forall_rev. eapply Forall_impl; [exact Hn|]. intros c Hc. cbn.
    destruct (Ascii.eqb_spec c "/"); [contradiction|reflexivity].
  - reflexivity.
Qed.

Lemma safe_title_no_slash (title : string) (input_file : PathArg) (safe : string) :
  safe_title_of title input_file = Some safe ->
  Forall (fun c => c <> "/"%char) (list_ascii_of_string safe).
Proof.
  unfold safe_title_of. destruct (String.eqb _ "").
  - destruct input_file; cbn; [|discriminate]. intros [= <-]. apply path_stem_no_slash.
  - intros [= <-]. apply slug_ok_not_slash, slugify_slug_ok.
Qed.

(** For a title of characters in U+0000..U+00FF (the characters of this
    model), every character of the slug of [parse_recipe] (before the
    fallback to the stem) is an alphanumeric character, '-' or '_', and is
    already lowercase: no space, no '/', no '.'.  (Beyond that range it
    fails: 'İ'.lower() is 'i' followed by U+0307, which is not
    alphanumeric.) *)
Theorem slugify_chars (title : string) :
  Forall (fun c => (PyStr.isalnum c || Ascii.eqb c "-" || Ascii.eqb c "_") = true /\
                   PyStr.lower_char c = c)
    (list_ascii_of_string (slugify title)).
Proof.
  eapply Forall_impl; [apply slugify_slug_ok|]. intros c Hc.
  apply slug_ok_spec in Hc. tauto.
Qed.

(** For a title of characters in U+0000..U+00FF (the characters of this
    model), the slug computation is idempotent: a slug is its own slug.
    (Beyond that range it fails: the slug of 'İ' is 'i' followed by
    U+0307, whose slug is 'i'.) *)
Theorem slugify_idempotent (title : string) : slugify (slugify title) = slugify title.
Proof.
  pose proof (slugify_slug_ok title) as H.
  assert (Hs : forall P : ascii -> Prop, (forall c, slug_ok c = true -> P c) ->
             Forall P (list_ascii_of_string (slugify title))).
  { intros P HP. eapply Forall_impl; [exact H|]. exact HP. }
  unfold slugify at 1. rewrite filter_id, rstrip_id.
  - unfold PyStr.replace_char, PyStr.lower. rewrite (map_id _ (slugify title)).
    + apply map_id. apply Hs. intros c Hc. apply slug_ok_spec in Hc; tauto.
    + apply Hs. intros c Hc. apply slug_ok_spec in Hc as (_ & _ & Hc & _). by rewrite Hc.
  - apply Hs. intros c Hc. apply slug_ok_spec in Hc; tauto.
  - apply Hs. intros c Hc. apply slug_ok_spec in Hc; tauto.
Qed.

(** The JSON and HTML files of [parse_recipe] are written directly in the
    output directory: whatever the title, the last component of each
    output path is [safe_title] followed by ".json" or ".html". *)
Theorem output_files_in_output_dir (title : string) (input_file : PathArg) (output_dir safe : string) :
  safe_title_of title input_file = Some safe ->
  path_name (path_join output_dir (safe ++ ".json")) = safe ++ ".json" /\
  path_name (path_join output_dir (safe ++ ".html")) = safe ++ ".html".
Proof.
  intros H. apply safe_title_no_slash in H.
  split; apply path_name_join; rewrite list_ascii_of_string_app;
    apply Forall_app; (split; [exact H|]); repeat constructor; discriminate.
Qed.

Lemma output_files_in_output_dir_witness :
  safe_title_of "Pie/Crust" (PathObj "recipes/pie.txt") = Some "piecrust" /\
  path_name (path_join "../up" ("piecrust" ++ ".json")) = "piecrust" ++ ".json" /\
  path_name (path_join "../up" ("piecrust" ++ ".html")) = "piecrust" ++ ".html".
Proof.
  assert (H : safe_title_of "Pie/Crust" (PathObj "recipes/pie.txt") = Some "piecrust")
    by (vm_compute; reflexivity).
  split; [exact H|]. exact (output_files_in_output_dir _ _ "../up" _ H).
Defined.

(** ** The extraction loop *)

Lemma scan_snd_cons json_loads str_to_float e rest :
  snd (scan json_loads str_to_float (e :: rest)) =
  if String.eqb (extraction_class e) "Recipe" then
    match recipe_of_text json_loads str_to_float (extraction_text e) with
    | Some (Some r) => Some r
    | _ => snd (scan json_loads str_to_float rest)
    end
  else snd (scan json_loads str_to_float rest).
Proof.
  cbn. destruct (String.eqb _ _); [|reflexivity].
  destruct (recipe_of_text _ _ _) as [[r|]|]; [reflexivity| |];
    destruct (scan json_loads str_to_float rest); reflexivity.
Qed.

(** Extractions of a class other than "Recipe" are ignored altogether:
    dropping them from the service's answer changes neither the recipe
    returned nor a single log record. *)
Theorem extract_recipe_ignores_other_classes json_loads str_to_float exs :
  on_outcome json_loads str_to_float (LxReturned (Some exs)) =
  on_outcome json_loads str_to_float
    (LxReturned (Some (List.filter (fun e => String.eqb (extraction_class e) "Recipe") exs))).
Proof.
  cbn. induction exs as [|e rest IH]; cbn; [reflexivity|].
  destruct (String.eqb (extraction_class e) "Recipe") eqn:Hc; cbn; rewrite ?Hc, ?IH; reflexivity.
Qed.

(** Splitting the service's answer: the recipe found in [l1 ++ l2] is the
    one found in [l1] when there is one (the extractions of [l2] are then
    never looked at), and otherwise the one found in [l2]. *)
Theorem extract_recipe_answer_app json_loads str_to_float (l1 l2 : list Extraction) :
  snd (on_outcome json_loads str_to_float (LxReturned (Some (l1 ++ l2)%list))) =
  match snd (on_outcome json_loads str_to_float (LxReturned (Some l1))) with
  | Some r => Some r
  | None => snd (on_outcome json_loads str_to_float (LxReturned (Some l2)))
  end.
Proof.
  cbn. induction l1 as [|e rest IH]; [reflexivity|].
  rewrite <- app_comm_cons, !scan_snd_cons.
  destruct (String.eqb _ _); [|exact IH].
  destruct (recipe_of_text _ _ _) as [[r|]|]; [reflexivity|exact IH|exact IH].
Qed.

Lemma scan_log_end json_loads str_to_float exs :
  (snd (scan json_loads str_to_float exs) = None /\
   exists pre, fst (scan json_loads str_to_float exs) =
     (pre ++ [(WARNING, "No recipe extractions found in the result")])%list) \/
  (exists r pre m, snd (scan json_loads str_to_float exs) = Some r /\
     fst (scan json_loads str_to_float exs) = (pre ++ [(INFO, m)])%list).
Proof.
  induction exs as [|e rest IH]; cbn.
  - left. split; [reflexivity|]. by exists [].
  - destruct (String.eqb _ _); [|exact IH].
    destruct (recipe_of_text _ _ _) as [[r|]|].
    + right. exists r, [(INFO, "Successfully extracted recipe: " ++ title r); (INFO, "ingredients")],
        "instructions". split; reflexivity.
    + destruct (scan json_loads str_to_float rest) as [l res]. cbn in IH.
      destruct IH as [[-> [pre ->]] | (r & pre & m & -> & ->)]; cbn.
      * left. split; [reflexivity|]. by exists ((DEBUG, "Skipping partial extraction without title") :: pre).
      * right. exists r, ((DEBUG, "Skipping partial extraction without title") :: pre), m. split; reflexivity.
    + destruct (scan json_loads str_to_float rest) as [l res]. cbn in IH.
      destruct IH as [[-> [pre ->]] | (r & pre & m & -> & ->)]; cbn.
      * left. split; [reflexivity|].
        by exists ((ERROR, "Error parsing recipe extraction") ::
                   (ERROR, "Extraction text: " ++ extraction_text e) :: pre).
      * right. exists r, ((ERROR, "Error parsing recipe extraction") ::
                          (ERROR, "Extraction text: " ++ extraction_text e) :: pre), m.
        split; reflexivity.
Qed.

(** The log of [extract_recipe] opens with the INFO record of the start;
    when no recipe is returned its last record is a WARNING or an ERROR,
    and when a recipe is returned its last record is at INFO level. *)
Theorem extract_recipe_log_levels lx json_loads str_to_float self text :
  head (fst (run_extract lx (extract_recipe json_loads str_to_float self text))) =
    Some (INFO, "Extracting recipe from text") /\
  (snd (run_extract lx (extract_recipe json_loads str_to_float self text)) = None ->
   exists m, last (fst (run_extract lx (extract_recipe json_loads str_to_float self text))) =
               Some (WARNING, m) \/
             last (fst (run_extract lx (extract_recipe json_loads str_to_float self text))) =
               Some (ERROR, m)) /\
  (forall r, snd (run_extract lx (extract_recipe json_loads str_to_float self text)) = Some r ->
   exists m, last (fst (run_extract lx (extract_recipe json_loads str_to_float self text))) =
               Some (INFO, m)).
Proof.
  unfold extract_recipe. destruct (Nat.ltb _ 100); cbn.
  - split; [reflexivity|]. split; [|discriminate]. intros _. eexists. left. reflexivity.
  - destruct (lx text (model self) (api_key self)) as [msg|[exs|]]; cbn.
    + split; [reflexivity|]. split; [|discriminate]. intros _. eexists. right. reflexivity.
    + destruct (scan_log_end json_loads str_to_float exs) as [[Hn [pre Hl]] | (r & pre & m & Hs & Hl)];
        destruct (scan json_loads str_to_float exs) as [l res]; cbn in *; subst.
      * split; [reflexivity|]. split; [|discriminate]. intros _. eexists. left.
        by rewrite app_comm_cons, last_snoc.
      * split; [reflexivity|]. split; [discriminate|]. intros r' _. exists m.
        by rewrite app_comm_cons, last_snoc.
    + split; [reflexivity|]. split; [|discriminate]. intros _. eexists. left. reflexivity.
Qed.

(** ** Shapes the payload fields must have *)

Lemma ingredient_of_dict str_to_float it ing :
  ingredient_of str_to_float it = Some ing -> exists ikvs, it = JDict ikvs.
Proof. destruct it; cbn; try discriminate. intros _. by eexists. Qed.

(** The "ingredients" value of a payload that gives a recipe is absent, a
    list of dicts (one ingredient per item, in order), or an empty string or
    dict; [null], a number, a non-empty string, a non-empty dict or a list
    with an item that is not a dict make the extraction fail. *)
Theorem build_recipe_ingredients_shape str_to_float kvs r :
  build_recipe str_to_float (JDict kvs) = Some r ->
  match assoc "ingredients" kvs with
  | None | Some (JStr EmptyString) | Some (JDict []) => ingredients r = []
  | Some (JList items) =>
      Forall (fun it => exists ikvs, it = JDict ikvs) items /\
      length (ingredients r) = length items
  | Some _ => False
  end.
Proof.
  intros H. apply build_recipe_inv in H as [(items & Hi & Hf) _].
  destruct (assoc "ingredients" kvs) as [v|]; cbn in Hi.
  - destruct v as [| | | |s|l|kvs']; cbn in Hi; try discriminate.
    + injection Hi as <-.
      destruct s as [|c s].
      * cbn in Hf. by apply Forall2_nil_inv_l in Hf.
      * exfalso. cbn in Hf. inversion Hf as [|? ? ? ? Hc]; subst. discriminate Hc.
    + injection Hi as <-. split.
      * clear -Hf. induction Hf as [|it ing items ings Hit _ IH]; constructor; [|exact IH].
        exact (ingredient_of_dict _ _ _ Hit).
      * symmetry. exact (Forall2_length _ _ _ Hf).
    + injection Hi as <-. destruct kvs' as [|[k v] kvs'].
      * cbn in Hf. by apply Forall2_nil_inv_l in Hf.
      * exfalso. cbn in Hf. inversion Hf as [|? ? ? ? Hc]; subst. discriminate Hc.
  - injection Hi as <-. by apply Forall2_nil_inv_l in Hf.
Qed.

Lemma build_recipe_ingredients_shape_witness :
  build_recipe sample_str_to_float (JDict [("title", JStr "Toast"); ("ingredients", JStr "")]) =
    Some (mkRecipe "Toast" "" "" "" "" [] []) /\
  ingredients (mkRecipe "Toast" "" "" "" "" [] []) = [].
Proof.
  assert (H : build_recipe sample_str_to_float
                (JDict [("title", JStr "Toast"); ("ingredients", JStr "")]) =
              Some (mkRecipe "Toast" "" "" "" "" [] [])) by (vm_compute; reflexivity).
  split; [exact H|]. exact (build_recipe_ingredients_shape _ _ _ H).
Defined.

(** A field given as [null] is not replaced by its default ([.get] only
    defaults an absent key): a payload whose title, description,
    prep_time, cook_time, servings, ingredients or instructions is [null]
    gives no recipe. *)
Theorem build_recipe_null_field str_to_float kvs k :
  In k ["title"; "description"; "prep_time"; "cook_time"; "servings";
         "ingredients"; "instructions"] ->
  assoc k kvs = Some JNull -> build_recipe str_to_float (JDict kvs) = None.
Proof.
  intros Hk Hn. destruct (build_recipe str_to_float (JDict kvs)) as [r|] eqn:Hb; [|reflexivity].
  apply build_recipe_inv in Hb as [(items & Hi & _) (Ht & Hd & Hp & Hc & Hs & Hl)].
  destruct Hk as [<-|[<-|[<-|[<-|[<-|[<-|[<-|[]]]]]]]]; rewrite Hn in *; cbn in *; discriminate.
Qed.

Lemma build_recipe_null_field_witness :
  In "description" ["title"; "description"; "prep_time"; "cook_time"; "servings";
                    "ingredients"; "instructions"] /\
  assoc "description" [("title", JStr "Toast"); ("description", JNull)] = Some JNull /\
  build_recipe sample_str_to_float (JDict [("title", JStr "Toast"); ("description", JNull)]) = None.
Proof.
  assert (H1 : In "description" ["title"; "description"; "prep_time"; "cook_time"; "servings";
                                 "ingredients"; "instructions"]) by (right; left; reflexivity).
  assert (H2 : assoc "description" [("title", JStr "Toast"); ("description", JNull)] = Some JNull)
    by reflexivity.
  split; [exact H1|]. split; [exact H2|]. exact (build_recipe_null_field _ _ _ H1 H2).
Defined.

(** In an ingredient dict, a missing "name" becomes "", but a [null] name
    makes the ingredient, and so the whole extraction, fail; a [null]
    quantity or unit is accepted and becomes [None]: with a string or
    missing name, a [null] quantity next to a valid unit (or a [null] unit
    next to a valid quantity) gives the ingredient with that field
    [None]. *)
Theorem ingredient_name_default str_to_float ikvs :
  (forall ing, ingredient_of str_to_float (JDict ikvs) = Some ing ->
     (assoc "name" ikvs = None -> name ing = "") /\
     (assoc "quantity" ikvs = Some JNull -> quantity ing = None) /\
     (assoc "unit" ikvs = Some JNull -> unit ing = None)) /\
  (assoc "name" ikvs = Some JNull -> ingredient_of str_to_float (JDict ikvs) = None) /\
  (forall n q u,
     (assoc "name" ikvs = None /\ n = "") \/ assoc "name" ikvs = Some (JStr n) ->
     validate_opt_float str_to_float
       (match assoc "quantity" ikvs with Some v => v | None => JNull end) = Some q ->
     validate_opt_str (match assoc "unit" ikvs with Some v => v | None => JNull end) = Some u ->
     (assoc "quantity" ikvs = Some JNull ->
        ingredient_of str_to_float (JDict ikvs) = Some (mkIngredient n None u)) /\
     (assoc "unit" ikvs = Some JNull ->
        ingredient_of str_to_float (JDict ikvs) = Some (mkIngredient n q None))).
Proof.
  unfold ingredient_of, Ingredient_new. cbn. split; [|split].
  - intros ing H. inv_some H. subst ing. cbn.
    repeat split; intros Ha; rewrite Ha in *; cbn in *; congruence.
  - intros Ha. rewrite Ha. reflexivity.
  - intros n q u Hn Hq Hu.
    assert (En : match assoc "name" ikvs with Some v => v | None => JStr "" end = JStr n)
      by (destruct Hn as [[-> ->]| ->]; reflexivity).
    rewrite En. cbn. rewrite Hq. cbn. rewrite Hu. cbn.
    split; intros Ha; rewrite Ha in *; cbn in *; congruence.
Qed.

Lemma ingredient_name_default_witness :
  ingredient_of sample_str_to_float
    (JDict [("name", JStr "egg"); ("quantity", JNull); ("unit", JNull)]) =
    Some (mkIngredient "egg" None None) /\
  ingredient_of sample_str_to_float
    (JDict [("quantity", JNull); ("unit", JStr "cup")]) =
    Some (mkIngredient "" None (Some "cup")).
Proof.
  split.
  - refine (proj1 (proj2 (proj2 (ingredient_name_default sample_str_to_float
               [("name", JStr "egg"); ("quantity", JNull); ("unit", JNull)])) "egg" None None
               (or_intror eq_refl) _ _) _); vm_compute; reflexivity.
  - refine (proj1 (proj2 (proj2 (ingredient_name_default sample_str_to_float
               [("quantity", JNull); ("unit", JStr "cup")])) "" None (Some "cup")
               (or_introl (conj eq_refl eq_refl)) _ _) _); vm_compute; reflexivity.
Defined.

Lemma ingredient_of_dump str_to_float (i : Ingredient) :
  ingredient_of str_to_float (Ingredient_dump i) = Some i.
Proof. destruct i as [n [q|] [u|]]; reflexivity. Qed.

Lemma build_recipe_dump str_to_float (r : Recipe) :
  build_recipe str_to_float (Recipe_dump r) = Some r.
Proof.
  destruct r as [t d p c s ings steps]. unfold build_recipe. cbn.
  assert (Hm : mapM (ingredient_of str_to_float) (List.map Ingredient_dump ings) = Some ings).
  { apply mapM_Some_2. induction ings as [|i ings IH]; constructor; [|exact IH].
    apply ingredient_of_dump. }
  rewrite Hm. cbn. unfold Recipe_new. cbn. by rewrite mapM_validate_str.
Qed.

(** Round trip: the dict [model_dump()] gives for a recipe with a
    non-empty title, handed back by the service as the payload of a
    "Recipe" extraction, is turned by [extract_recipe] into that same
    recipe. *)
Theorem extract_recipe_dump_round_trip json_loads str_to_float text r :
  json_loads text = Some (Recipe_dump r) -> title r <> "" ->
  snd (on_outcome json_loads str_to_float (LxReturned (Some [mkExtraction "Recipe" text]))) =
    Some r.
Proof.
  intros Hl Ht. rewrite on_outcome_single.
  assert (Hr : recipe_of_text json_loads str_to_float text = Some (Some r)).
  { apply recipe_of_text_accept. eexists _, (JStr (title r)). split; [exact Hl|].
    split; [reflexivity|]. split.
    - cbn. apply negb_true_iff, String.eqb_neq. exact Ht.
    - apply build_recipe_dump. }
  by rewrite Hr.
Qed.

Lemma extract_recipe_dump_round_trip_witness :
  let r := mkRecipe "Rice" "Plain" "5 min" "20 min" "2"
             [mkIngredient "rice" (Some (S754_finite false 1 0)) (Some "cup");
              mkIngredient "salt" None None] ["Boil"; "Rest"] in
  (fun _ : string => Some (Recipe_dump r)) "saved.json" = Some (Recipe_dump r) /\
  title r <> "" /\
  snd (on_outcome (fun _ => Some (Recipe_dump r)) sample_str_to_float
         (LxReturned (Some [mkExtraction "Recipe" "saved.json"]))) = Some r.
Proof.
  intros r. assert (H1 : (fun _ : string => Some (Recipe_dump r)) "saved.json" = Some (Recipe_dump r))
    by reflexivity.
  assert (H2 : title r <> "") by discriminate.
  split; [exact H1|]. split; [exact H2|]. exact (extract_recipe_dump_round_trip _ _ _ _ H1 H2).
Defined.

(** ** Effects of [parse_recipe] on the file system *)

Lemma parse_recipe_blank json_loads str_to_float json_dump html lx out input_file output_dir key m fs :
  (read_file fs (path_string input_file) = None \/
   exists t, read_file fs (path_string input_file) = Some t /\ PyStr.strip t = "") ->
  parse_recipe json_loads str_to_float json_dump html lx out input_file output_dir key m fs = (fs, false).
Proof.
  unfold parse_recipe. intros [H | (t & H & Hs)]; rewrite H; [reflexivity|].
  cbn -[PyStr.strip]. rewrite Hs. reflexivity.
Qed.

(** A missing input file, or one holding only whitespace, makes
    [parse_recipe] return [False] with the file system untouched, whatever
    the extraction service would answer: the service is not called. *)
Theorem parse_recipe_no_input json_loads str_to_float json_dump html lx out input_file
    output_dir key m fs :
  (read_file fs (path_string input_file) = None \/
   exists t, read_file fs (path_string input_file) = Some t /\ PyStr.strip t = "") ->
  parse_recipe json_loads str_to_float json_dump html lx out input_file output_dir key m fs = (fs, false).
Proof. apply parse_recipe_blank. Qed.

Lemma parse_recipe_no_input_witness :
  (read_file (mkFS {["recipe.txt" := " 	
 "]} ∅) (path_string (PyStrPath "recipe.txt")) = None \/
   exists t, read_file (mkFS {["recipe.txt" := " 	
 "]} ∅) (path_string (PyStrPath "recipe.txt")) = Some t /\
     PyStr.strip t = "") /\
  parse_recipe sample_loads sample_str_to_float sample_json_dump sample_html sample_lx sample_out
    (PyStrPath "recipe.txt") "output" "test-key" "gemini-2.5-flash"
    (mkFS {["recipe.txt" := " 	
 "]} ∅) = (mkFS {["recipe.txt" := " 	
 "]} ∅, false).
Proof.
  assert (H : read_file (mkFS {["recipe.txt" := " 	
 "]} ∅) (path_string (PyStrPath "recipe.txt")) = None \/
   exists t, read_file (mkFS {["recipe.txt" := " 	
 "]} ∅) (path_string (PyStrPath "recipe.txt")) = Some t /\
     PyStr.strip t = "").
  { right. eexists. split; vm_compute; reflexivity. }
  split; [exact H|]. exact (parse_recipe_no_input _ _ _ _ _ _ _ _ _ _ _ H).
Defined.

(** When the extraction gives no recipe, or the output directory path is
    an existing file, [parse_recipe] returns [False] and changes nothing:
    no directory is created and no file is written. *)
Theorem parse_recipe_failure_unchanged json_loads str_to_float json_dump html lx out input_file
    output_dir key m fs t :
  read_file fs (path_string input_file) = Some t ->
  (snd (run_extract lx (extract_recipe json_loads str_to_float (mkRecipeExtractor key m) t)) = None \/
   is_Some (files fs !! output_dir)) ->
  parse_recipe json_loads str_to_float json_dump html lx out input_file output_dir key m fs = (fs, false).
Proof.
  intros Hr Hf. unfold parse_recipe. rewrite Hr.
  destruct (String.eqb _ ""); [reflexivity|].
  destruct (snd (run_extract _ _)) as [r|] eqn:He; [|reflexivity].
  destruct Hf as [Hf|[v Hv]]; [congruence|].
  rewrite (mkdir_p_file _ _ _ Hv). reflexivity.
Qed.

Lemma parse_recipe_failure_unchanged_witness :
  read_file sample_fs (path_string (PyStrPath "recipe.txt")) = Some sample_text /\
  (snd (run_extract failing_lx (extract_recipe sample_loads sample_str_to_float
          (mkRecipeExtractor "test-key" "gemini-2.5-flash") sample_text)) = None \/
   is_Some (files sample_fs !! "output")) /\
  parse_recipe sample_loads sample_str_to_float sample_json_dump sample_html failing_lx sample_out
    (PyStrPath "recipe.txt") "output" "test-key" "gemini-2.5-flash" sample_fs = (sample_fs, false).
Proof.
  assert (H1 : read_file sample_fs (path_string (PyStrPath "recipe.txt")) = Some sample_text)
    by (vm_compute; reflexivity).
  assert (H2 : snd (run_extract failing_lx (extract_recipe sample_loads sample_str_to_float
          (mkRecipeExtractor "test-key" "gemini-2.5-flash") sample_text)) = None \/
          is_Some (files sample_fs !! "output")) by (left; vm_compute; reflexivity).
  split; [exact H1|]. split; [exact H2|].
  exact (parse_recipe_failure_unchanged _ _ _ _ _ _ _ _ _ _ _ _ H1 H2).
Defined.

(** [parse_recipe] never deletes anything: every file and directory present
    before the call is still there after it, whatever the outcome; every
    directory it adds is the output directory or one of its ancestors
    (created by [mkdir(parents=True)]). *)
Theorem parse_recipe_never_deletes json_loads str_to_float json_dump html lx out input_file
    output_dir key m fs :
  dom (files fs) ⊆
    dom (files (fst (parse_recipe json_loads str_to_float json_dump html lx out input_file
                       output_dir key m fs))) /\
  dirs fs ⊆ dirs (fst (parse_recipe json_loads str_to_float json_dump html lx out input_file
                         output_dir key m fs)) /\
  (forall a, a ∈ dirs (fst (parse_recipe json_loads str_to_float json_dump html lx out
                             input_file output_dir key m fs)) -> a ∉ dirs fs ->
     a = output_dir \/ exists r, output_dir = a ++ "/" ++ r).
Proof.
  unfold parse_recipe.
  destruct (read_file fs _) as [t|]; [|cbn; split_and!; [set_solver|set_solver|]; intros a Ha Ha'; contradiction].
  destruct (String.eqb _ _); [cbn; split_and!; [set_solver|set_solver|]; intros a Ha Ha'; contradiction|].
  destruct (snd (run_extract _ _)) as [r|]; [|cbn; split_and!; [set_solver|set_solver|]; intros a Ha Ha'; contradiction].
  destruct (mkdir_p fs output_dir) as [fs1|] eqn:Hm; [|cbn; split_and!; [set_solver|set_solver|]; intros a Ha Ha'; contradiction].
  apply mkdir_go_Some in Hm as (Hf1 & Hd1 & _ & Hn1).
  unfold write_file.
  repeat case_match; simplify_eq/=; rewrite ?dom_insert_L, ?Hf1;
    (split; [set_solver|]); (split; [set_solver|]);
    intros a Ha Ha'; exact (proj2 (Hn1 a Ha Ha')).
Qed.

Lemma parse_recipe_changed json_loads str_to_float json_dump html lx out input_file
    output_dir key m fs p :
  files (fst (parse_recipe json_loads str_to_float json_dump html lx out input_file
                output_dir key m fs)) !! p <> files fs !! p ->
  exists t r safe,
    read_file fs (path_string input_file) = Some t /\
    snd (run_extract lx (extract_recipe json_loads str_to_float (mkRecipeExtractor key m) t)) =
      Some r /\
    safe_title_of (title r) input_file = Some safe /\
    (p = path_join output_dir (safe ++ ".json") \/ p = path_join output_dir (safe ++ ".html")).
Proof.
  unfold parse_recipe. intros Hp.
  destruct (read_file fs _) as [t|] eqn:Hr; [|by cbn in Hp].
  destruct (String.eqb _ _); [by cbn in Hp|].
  destruct (snd (run_extract _ _)) as [r|] eqn:He; [|by cbn in Hp].
  destruct (mkdir_p fs output_dir) as [fs1|] eqn:Hm; [|by cbn in Hp].
  apply mkdir_go_Some in Hm as (Hf1 & _).
  destruct (safe_title_of (title r) input_file) as [safe|] eqn:Ht; [|cbn in Hp; congruence].
  exists t, r, safe. do 3 (split; [first [reflexivity|assumption]|]).
  destruct (write_file _ (path_join output_dir (safe ++ ".json")) _) as [fs2|] eqn:Hj;
    [apply write_file_Some in Hj as [_ ->]|cbn in Hp; congruence].
  destruct (write_file _ (path_join output_dir (safe ++ ".html")) _) as [fs3|] eqn:Hh;
    [apply write_file_Some in Hh as [_ ->]; destruct (out _)|]; cbn in Hp.
  1, 2: destruct (decide (p = path_join output_dir (safe ++ ".html"))) as [|Hne]; [by right|];
    rewrite lookup_insert_ne in Hp by congruence;
    destruct (decide (p = path_join output_dir (safe ++ ".json"))) as [|Hne']; [by left|];
    rewrite lookup_insert_ne in Hp by congruence; congruence.
  destruct (decide (p = path_join output_dir (safe ++ ".json"))) as [|Hne']; [by left|].
    rewrite lookup_insert_ne in Hp by congruence. congruence.
Qed.

(** The only files [parse_recipe] creates or overwrites are the two output
    files [output_dir/<safe_title>.json] and [output_dir/<safe_title>.html]
    of the recipe extracted from the input text. *)
Theorem parse_recipe_writes_only_outputs json_loads str_to_float json_dump html lx out input_file
    output_dir key m fs p :
  files (fst (parse_recipe json_loads str_to_float json_dump html lx out input_file
                output_dir key m fs)) !! p <> files fs !! p ->
  exists t r safe,
    read_file fs (path_string input_file) = Some t /\
    snd (run_extract lx (extract_recipe json_loads str_to_float (mkRecipeExtractor key m) t)) =
      Some r /\
    safe_title_of (title r) input_file = Some safe /\
    (p = path_join output_dir (safe ++ ".json") \/ p = path_join output_dir (safe ++ ".html")).
Proof. apply parse_recipe_changed. Qed.

Lemma parse_recipe_writes_only_outputs_witness :
  files (fst (parse_recipe sample_loads sample_str_to_float sample_json_dump sample_html sample_lx sample_out
                (PyStrPath "recipe.txt") "output" "test-key" "gemini-2.5-flash" sample_fs))
    !! "output/waffles.html" <> files sample_fs !! "output/waffles.html" /\
  exists t r safe,
    read_file sample_fs (path_string (PyStrPath "recipe.txt")) = Some t /\
    snd (run_extract sample_lx (extract_recipe sample_loads sample_str_to_float
                                  (mkRecipeExtractor "test-key" "gemini-2.5-flash") t)) =
      Some r /\
    safe_title_of (title r) (PyStrPath "recipe.txt") = Some safe /\
    ("output/waffles.html" = path_join "output" (safe ++ ".json") \/
     "output/waffles.html" = path_join "output" (safe ++ ".html")).
Proof.
  assert (H : files (fst (parse_recipe sample_loads sample_str_to_float sample_json_dump
                            sample_html sample_lx sample_out (PyStrPath "recipe.txt") "output" "test-key"
                            "gemini-2.5-flash" sample_fs))
                !! "output/waffles.html" <> files sample_fs !! "output/waffles.html")
    by (vm_compute; discriminate).
  split; [exact H|]. exact (parse_recipe_writes_only_outputs _ _ _ _ _ _ _ _ _ _ _ _ H).
Defined.



(** No rollback: when the JSON file has been written but the HTML path is
    a directory, [parse_recipe] returns [False] and the new JSON file (and
    the output directory) stay.  The ancestors of the output directory
    exist (as they do when the HTML path is a directory in it) and it is
    not "." or "/", so [mkdir] adds exactly the output directory. *)
Theorem parse_recipe_no_rollback json_loads str_to_float json_dump html lx out input_file
    output_dir key m fs t r safe :
  read_file fs (path_string input_file) = Some t -> PyStr.strip t <> "" ->
  snd (run_extract lx (extract_recipe json_loads str_to_float (mkRecipeExtractor key m) t)) =
    Some r ->
  files fs !! output_dir = None ->
  walk fs (ancestors output_dir) = None -> is_root output_dir = false ->
  safe_title_of (title r) input_file = Some safe ->
  path_join output_dir (safe ++ ".json") ∉ {[output_dir]} ∪ dirs fs ->
  path_join output_dir (safe ++ ".html") ∈ {[output_dir]} ∪ dirs fs ->
  parse_recipe json_loads str_to_float json_dump html lx out input_file output_dir key m fs =
    (mkFS (<[path_join output_dir (safe ++ ".json") := json_dump (Recipe_dump r)]> (files fs))
          ({[output_dir]} ∪ dirs fs), false).
Proof.
  intros Hr Hs He Ho Hw Hroot Ht Hj Hh. unfold parse_recipe. rewrite Hr.
  apply String.eqb_neq in Hs. cbn -[PyStr.strip run_extract extract_recipe mkdir_p].
  rewrite Hs, He. rewrite mkdir_p_new by assumption. rewrite Ht. unfold write_file. cbn.
  rewrite bool_decide_false by exact Hj. cbn. rewrite bool_decide_true by exact Hh. reflexivity.
Qed.

Lemma parse_recipe_no_rollback_witness :
  let fs := mkFS {["recipe.txt" := sample_text]} {["output"; "output/waffles.html"]} in
  read_file fs (path_string (PyStrPath "recipe.txt")) = Some sample_text /\
  PyStr.strip sample_text <> "" /\
  snd (run_extract sample_lx (extract_recipe sample_loads sample_str_to_float
         (mkRecipeExtractor "test-key" "gemini-2.5-flash") sample_text)) =
    Some (mkRecipe "Waffles" "" "" "" "" [] []) /\
  files fs !! "output" = None /\
  walk fs (ancestors "output") = None /\ is_root "output" = false /\
  safe_title_of (title (mkRecipe "Waffles" "" "" "" "" [] [])) (PyStrPath "recipe.txt") =
    Some "waffles" /\
  (path_join "output" ("waffles" ++ ".json") ∉ {["output"]} ∪ dirs fs) /\
  (path_join "output" ("waffles" ++ ".html") ∈ {["output"]} ∪ dirs fs) /\
  parse_recipe sample_loads sample_str_to_float sample_json_dump sample_html sample_lx sample_out
    (PyStrPath "recipe.txt") "output" "test-key" "gemini-2.5-flash" fs =
    (mkFS (<[path_join "output" ("waffles" ++ ".json") :=
              sample_json_dump (Recipe_dump (mkRecipe "Waffles" "" "" "" "" [] []))]> (files fs))
          ({["output"]} ∪ dirs fs), false).
Proof.
  intros fs.
  assert (H1 : read_file fs (path_string (PyStrPath "recipe.txt")) = Some sample_text)
    by (vm_compute; reflexivity).
  assert (H2 : PyStr.strip sample_text <> "") by (vm_compute; discriminate).
  assert (H3 : snd (run_extract sample_lx (extract_recipe sample_loads sample_str_to_float
                 (mkRecipeExtractor "test-key" "gemini-2.5-flash") sample_text)) =
               Some (mkRecipe "Waffles" "" "" "" "" [] [])) by (vm_compute; reflexivity).
  assert (H4 : files fs !! "output" = None) by (vm_compute; reflexivity).
  assert (H4a : walk fs (ancestors "output") = None) by (vm_compute; reflexivity).
  assert (H4b : is_root "output" = false) by (vm_compute; reflexivity).
  assert (H5 : safe_title_of (title (mkRecipe "Waffles" "" "" "" "" [] [])) (PyStrPath "recipe.txt") =
               Some "waffles") by (vm_compute; reflexivity).
  assert (H6 : path_join "output" ("waffles" ++ ".json") ∉ {["output"]} ∪ dirs fs)
    by (unfold fs; cbn; set_solver).
  assert (H7 : path_join "output" ("waffles" ++ ".html") ∈ {["output"]} ∪ dirs fs)
    by (unfold fs; cbn; set_solver).
  do 9 (split; [assumption|]).
  exact (parse_recipe_no_rollback _ _ _ _ _ _ _ _ _ _ _ _ _ _ H1 H2 H3 H4 H4a H4b H5 H6 H7).
Defined.

(** On success both output files are in place: the output directory
    exists, the JSON file holds [json.dump] of [model_dump()] of the
    extracted recipe and the HTML file holds
    [generate_html_visualization(recipe, recipe_text)] of the same recipe
    and of the input text. *)
Theorem parse_recipe_success_files json_loads str_to_float json_dump html lx out input_file
    output_dir key m fs fs' :
  parse_recipe json_loads str_to_float json_dump html lx out input_file output_dir key m fs =
    (fs', true) ->
  exists t r safe,
    read_file fs (path_string input_file) = Some t /\
    snd (run_extract lx (extract_recipe json_loads str_to_float (mkRecipeExtractor key m) t)) =
      Some r /\
    safe_title_of (title r) input_file = Some safe /\
    is_dir fs' output_dir = true /\
    files fs' !! path_join output_dir (safe ++ ".json") = Some (json_dump (Recipe_dump r)) /\
    files fs' !! path_join output_dir (safe ++ ".html") = Some (html r t).
Proof.
  intros H.
  apply parse_recipe_true in H
    as (t & r & safe & fs1 & fs2 & Hr & _ & He & Hm & Ht & Hj & Hh & _).
  pose proof (json_file_not_html_file output_dir safe) as Hne.
  apply mkdir_go_Some in Hm as (_ & _ & Hd1 & _).
  pose proof (is_dir_write_below _ _ _ _ _ (is_dir_write_below _ _ _ _ _ Hd1 Hj) Hh) as Hd.
  apply write_file_Some in Hj as [_ ->]. apply write_file_Some in Hh as [_ ->].
  exists t, r, safe. do 4 (split; [assumption|]). cbn.
  split; [|apply lookup_insert_eq].
  rewrite lookup_insert_ne by congruence. apply lookup_insert_eq.
Qed.

Lemma parse_recipe_success_files_witness :
  parse_recipe sample_loads sample_str_to_float sample_json_dump sample_html sample_lx sample_out
    (PyStrPath "recipe.txt") "output" "test-key" "gemini-2.5-flash" sample_fs =
    (fst (parse_recipe sample_loads sample_str_to_float sample_json_dump sample_html sample_lx sample_out
            (PyStrPath "recipe.txt") "output" "test-key" "gemini-2.5-flash" sample_fs), true) /\
  exists t r safe,
    read_file sample_fs (path_string (PyStrPath "recipe.txt")) = Some t /\
    snd (run_extract sample_lx (extract_recipe sample_loads sample_str_to_float
                                  (mkRecipeExtractor "test-key" "gemini-2.5-flash") t)) =
      Some r /\
    safe_title_of (title r) (PyStrPath "recipe.txt") = Some safe /\
    is_dir (fst (parse_recipe sample_loads sample_str_to_float sample_json_dump
                            sample_html sample_lx sample_out (PyStrPath "recipe.txt") "output" "test-key"
                            "gemini-2.5-flash" sample_fs)) "output" = true /\
    files (fst (parse_recipe sample_loads sample_str_to_float sample_json_dump sample_html
                  sample_lx sample_out (PyStrPath "recipe.txt") "output" "test-key" "gemini-2.5-flash"
                  sample_fs)) !! path_join "output" (safe ++ ".json") =
      Some (sample_json_dump (Recipe_dump r)) /\
    files (fst (parse_recipe sample_loads sample_str_to_float sample_json_dump sample_html
                  sample_lx sample_out (PyStrPath "recipe.txt") "output" "test-key" "gemini-2.5-flash"
                  sample_fs)) !! path_join "output" (safe ++ ".html") =
      Some (sample_html r t).
Proof.
  assert (H : parse_recipe sample_loads sample_str_to_float sample_json_dump sample_html sample_lx sample_out
    (PyStrPath "recipe.txt") "output" "test-key" "gemini-2.5-flash" sample_fs =
    (fst (parse_recipe sample_loads sample_str_to_float sample_json_dump sample_html sample_lx sample_out
            (PyStrPath "recipe.txt") "output" "test-key" "gemini-2.5-flash" sample_fs), true))
    by (vm_compute; reflexivity).
  split; [exact H|]. exact (parse_recipe_success_files _ _ _ _ _ _ _ _ _ _ _ _ H).
Defined.

(** The files written by [parse_recipe] do not depend on the console: if
    printing the summary raises (every [print] fails), [parse_recipe]
    returns [False] with the file system it would have left on success,
    so both output files are already written. *)
Theorem parse_recipe_print_failure json_loads str_to_float json_dump html lx out out'
    input_file output_dir key m fs fs' :
  parse_recipe json_loads str_to_float json_dump html lx out' input_file output_dir key m fs =
    (fs', true) ->
  (forall lines, out lines = false) ->
  parse_recipe json_loads str_to_float json_dump html lx out input_file output_dir key m fs =
    (fs', false).
Proof.
  intros H Hout. revert H. unfold parse_recipe.
  destruct (read_file fs (path_string input_file)) as [text|]; [|congruence].
  destruct (String.eqb (PyStr.strip text) ""); [congruence|].
  destruct (snd (run_extract lx _)) as [r|]; [|congruence].
  destruct (mkdir_p fs output_dir) as [fs1|]; [|congruence].
  destruct (safe_title_of (title r) input_file) as [safe|]; [|congruence].
  destruct (write_file fs1 _ _) as [fs2|]; [|congruence].
  destruct (write_file fs2 _ _) as [fs3|]; [|congruence].
  rewrite Hout. destruct (out' _); congruence.
Qed.

Lemma parse_recipe_print_failure_witness :
  parse_recipe sample_loads sample_str_to_float sample_json_dump sample_html sample_lx sample_out
    (PyStrPath "recipe.txt") "output" "test-key" "gemini-2.5-flash" sample_fs =
    (fst (parse_recipe sample_loads sample_str_to_float sample_json_dump sample_html sample_lx
            sample_out (PyStrPath "recipe.txt") "output" "test-key" "gemini-2.5-flash" sample_fs),
     true) /\
  (forall lines, failing_out lines = false) /\
  parse_recipe sample_loads sample_str_to_float sample_json_dump sample_html sample_lx failing_out
    (PyStrPath "recipe.txt") "output" "test-key" "gemini-2.5-flash" sample_fs =
    (fst (parse_recipe sample_loads sample_str_to_float sample_json_dump sample_html sample_lx
            sample_out (PyStrPath "recipe.txt") "output" "test-key" "gemini-2.5-flash" sample_fs),
     false) /\
  files (fst (parse_recipe sample_loads sample_str_to_float sample_json_dump sample_html sample_lx
                sample_out (PyStrPath "recipe.txt") "output" "test-key" "gemini-2.5-flash"
                sample_fs)) !! "output/waffles.json" =
    Some (sample_json_dump (Recipe_dump (mkRecipe "Waffles" "" "" "" "" [] []))).
Proof.
  assert (H1 : parse_recipe sample_loads sample_str_to_float sample_json_dump sample_html sample_lx
    sample_out (PyStrPath "recipe.txt") "output" "test-key" "gemini-2.5-flash" sample_fs =
    (fst (parse_recipe sample_loads sample_str_to_float sample_json_dump sample_html sample_lx
            sample_out (PyStrPath "recipe.txt") "output" "test-key" "gemini-2.5-flash" sample_fs),
     true)) by (vm_compute; reflexivity).
  assert (H2 : forall lines, failing_out lines = false) by reflexivity.
  split; [exact H1|]. split; [exact H2|].
  split; [exact (parse_recipe_print_failure _ _ _ _ _ _ _ _ _ _ _ _ _ H1 H2)|].
  vm_compute. reflexivity.
Defined.

(** ** The HTML page *)

Lemma fold_append {A} (f : A -> string) (l : list A) (h : string) :
  fold_left (fun h x => h ++ f x) l h = h ++ fold_right (fun x acc => f x ++ acc) "" l.
Proof.
  revert h. induction l as [|x l IH]; intros h; cbn; [by rewrite str_app_nil_r|].
  by rewrite IH, str_app_assoc.
Qed.

Lemma fold_right_In {A} (f : A -> string) (l : list A) (x : A) :
  In x l -> exists a b, fold_right (fun x acc => f x ++ acc) "" l = a ++ f x ++ b.
Proof.
  induction l as [|y l IH]; cbn; [done|]. intros [->|Hin].
  - by exists "", (fold_right (fun x acc => f x ++ acc) "" l).
  - destruct (IH Hin) as (a & b & ->). exists (f y ++ a), b. by rewrite str_app_assoc.
Qed.

Lemma generate_html_unfold float_repr r t :
  generate_html_visualization float_repr r t =
  tpl_head ++ utf8 (title r) ++ tpl_style ++ utf8 (title r) ++
  tpl_meta ++ utf8 (prep_time r) ++ tpl_cook ++ utf8 (cook_time r) ++
  tpl_servings ++ utf8 (servings r) ++ tpl_description ++
  utf8 (description r) ++ tpl_ingredients ++
  fold_right (fun x acc => ingredient_html float_repr x ++ acc) "" (ingredients r) ++
  tpl_instructions ++
  fold_right (fun x acc => instruction_html x ++ acc) "" (instructions r) ++
  tpl_text_open ++ utf8 t ++ tpl_close.
Proof.
  unfold generate_html_visualization. cbv zeta.
  rewrite (fold_append (ingredient_html float_repr)), (fold_append instruction_html).
  by rewrite !str_app_assoc.
Qed.

(** The original text is put into the page verbatim (UTF-8 encoded, not
    HTML-escaped), right before the closing markup, and nowhere else: the
    page is a prefix that depends on the recipe alone, the text, and the
    fixed closing markup. *)
Theorem html_original_text_verbatim float_repr r :
  exists pre, forall t, generate_html_visualization float_repr r t = pre ++ utf8 t ++ tpl_close.
Proof.
  eexists. intros t. rewrite generate_html_unfold.
  rewrite <- !str_app_assoc. reflexivity.
Qed.

(** The title appears verbatim (not HTML-escaped) as the page's
    [<h1>] heading, and every instruction appears verbatim inside a
    [<div class="instruction">] element. *)
Theorem html_title_and_steps_verbatim float_repr r t :
  (exists pre post, generate_html_visualization float_repr r t =
     pre ++ "<h1>" ++ utf8 (title r) ++ "</h1>" ++ post) /\
  (forall i, In i (instructions r) -> exists pre post,
     generate_html_visualization float_repr r t =
       pre ++ with_quotes "<div class=^instruction^>" ++ utf8 i ++ "</div>" ++ post).
Proof.
  rewrite generate_html_unfold. split.
  - assert (Hs : tpl_style = substring 0 (String.length tpl_style - 4) tpl_style ++ "<h1>")
      by (vm_compute; reflexivity).
    assert (Hm : tpl_meta = "</h1>" ++ substring 5 (String.length tpl_meta - 5) tpl_meta)
      by (vm_compute; reflexivity).
    rewrite Hs, Hm. rewrite !str_app_assoc.
    exists (tpl_head ++ utf8 (title r) ++ substring 0 (String.length tpl_style - 4) tpl_style).
    eexists. rewrite !str_app_assoc. reflexivity.
  - intros i Hi. destruct (fold_right_In instruction_html _ i Hi) as (a & b & Hab).
    rewrite Hab. unfold instruction_html.
    assert (Ho : tpl_instr_open = "
                " ++ with_quotes "<div class=^instruction^>") by (vm_compute; reflexivity).
    assert (Hc : tpl_instr_close = "</div>" ++ "
") by (vm_compute; reflexivity).
    rewrite Ho, Hc. rewrite !str_app_assoc.
    exists (tpl_head ++ utf8 (title r) ++ tpl_style ++ utf8 (title r) ++
      tpl_meta ++ utf8 (prep_time r) ++ tpl_cook ++ utf8 (cook_time r) ++
      tpl_servings ++ utf8 (servings r) ++ tpl_description ++
      utf8 (description r) ++ tpl_ingredients ++
      fold_right (fun x acc => ingredient_html float_repr x ++ acc) "" (ingredients r) ++
      tpl_instructions ++ a ++ "
                ").
    eexists. rewrite !str_app_assoc. reflexivity.
Qed.

Lemma ingredient_html_empty_unit float_repr (ing : Ingredient) :
  ingredient_html float_repr
    (match unit ing with
     | Some EmptyString => mkIngredient (name ing) (quantity ing) None
     | _ => ing end) =
  ingredient_html float_repr ing.
Proof. destruct ing as [n q [[|c u]|]]; reflexivity. Qed.

(** A unit given as the empty string renders exactly like a missing unit
    ([ing.unit if ing.unit else ""]): replacing every empty unit by [None]
    does not change the page. *)
Theorem html_empty_unit_as_none float_repr r t :
  generate_html_visualization float_repr
    (mkRecipe (title r) (description r) (prep_time r) (cook_time r) (servings r)
       (List.map (fun ing => match unit ing with
                             | Some EmptyString => mkIngredient (name ing) (quantity ing) None
                             | _ => ing end) (ingredients r))
       (instructions r)) t =
  generate_html_visualization float_repr r t.
Proof.
  rewrite !generate_html_unfold. cbn [title description prep_time cook_time servings
    ingredients instructions].
  assert (Hl : forall l,
    fold_right (fun x acc => ingredient_html float_repr x ++ acc) ""
      (List.map (fun ing => match unit ing with
                            | Some EmptyString => mkIngredient (name ing) (quantity ing) None
                            | _ => ing end) l) =
    fold_right (fun x acc => ingredient_html float_repr x ++ acc) "" l).
  { induction l as [|ing l IH]; [reflexivity|].
    cbn [List.map fold_right]. by rewrite ingredient_html_empty_unit, IH. }
  by rewrite Hl.
Qed.

(** ** [main] *)

(** With the API key set, a missing or blank recipe.txt makes [main]
    exit with 1 and leave the file system as it was. *)
Theorem main_no_recipe_file json_loads str_to_float json_dump html lx out env fs :
  (read_file fs "recipe.txt" = None \/
   exists t, read_file fs "recipe.txt" = Some t /\ PyStr.strip t = "") ->
  run_main json_loads str_to_float json_dump html lx out env fs = (fs, 1%Z).
Proof.
  intros H. unfold run_main, main. destruct env as [key|]; [|reflexivity].
  destruct (String.eqb key ""); [reflexivity|].
  rewrite parse_recipe_blank by exact H. reflexivity.
Qed.

Lemma main_no_recipe_file_witness :
  (read_file (mkFS ∅ ∅) "recipe.txt" = None \/
   exists t, read_file (mkFS ∅ ∅) "recipe.txt" = Some t /\ PyStr.strip t = "") /\
  run_main sample_loads sample_str_to_float sample_json_dump sample_html sample_lx sample_out
    (Some "test-key") (mkFS ∅ ∅) = (mkFS ∅ ∅, 1%Z).
Proof.
  assert (H : read_file (mkFS ∅ ∅) "recipe.txt" = None \/
   exists t, read_file (mkFS ∅ ∅) "recipe.txt" = Some t /\ PyStr.strip t = "")
    by (left; reflexivity).
  split; [exact H|]. exact (main_no_recipe_file _ _ _ _ _ _ _ _ H).
Defined.

(** [main] creates or overwrites only files output/<s>.json and
    output/<s>.html, where [s] is a non-empty slug with no '/' and no
    space (the input is a [str], so there is no fallback to a stem). *)
Theorem main_writes_only_output json_loads str_to_float json_dump html lx out env fs p :
  files (fst (run_main json_loads str_to_float json_dump html lx out env fs)) !! p <> files fs !! p ->
  exists s, s <> "" /\
    Forall (fun c => c <> "/"%char /\ c <> " "%char) (list_ascii_of_string s) /\
    (p = "output/" ++ s ++ ".json" \/ p = "output/" ++ s ++ ".html").
Proof.
  unfold run_main, main. intros H.
  destruct env as [key|]; [|contradiction].
  destruct (String.eqb key ""); [contradiction|].
  destruct (parse_recipe json_loads str_to_float json_dump html lx out (PyStrPath "recipe.txt")
              "output" key "gemini-2.5-flash" fs) as [fs' ok] eqn:E.
  assert (H' : files (fst (parse_recipe json_loads str_to_float json_dump html lx out
                             (PyStrPath "recipe.txt") "output" key "gemini-2.5-flash" fs)) !! p
               <> files fs !! p) by (rewrite E; exact H).
  apply parse_recipe_changed in H' as (t & r & safe & _ & _ & Hs & Hp).
  unfold safe_title_of in Hs. destruct (String.eqb_spec (slugify (title r)) "") as [_|Hne];
    [discriminate|].
  injection Hs as <-. exists (slugify (title r)). split; [exact Hne|]. split.
  - eapply Forall_impl; [apply slugify_slug_ok|]. intros c Hc.
    split; intros ->; vm_compute in Hc; discriminate Hc.
  - exact Hp.
Qed.

Lemma main_writes_only_output_witness :
  files (fst (run_main sample_loads sample_str_to_float sample_json_dump sample_html sample_lx sample_out
                (Some "test-key") sample_fs)) !! "output/waffles.json" <>
    files sample_fs !! "output/waffles.json" /\
  exists s, s <> "" /\
    Forall (fun c => c <> "/"%char /\ c <> " "%char) (list_ascii_of_string s) /\
    ("output/waffles.json" = "output/" ++ s ++ ".json" \/
     "output/waffles.json" = "output/" ++ s ++ ".html").
Proof.
  assert (H : files (fst (run_main sample_loads sample_str_to_float sample_json_dump sample_html
                sample_lx sample_out (Some "test-key") sample_fs)) !! "output/waffles.json" <>
              files sample_fs !! "output/waffles.json") by (vm_compute; discriminate).
  split; [exact H|]. exact (main_writes_only_output _ _ _ _ _ _ _ _ _ H).
Defined.
